(** * Invoice AI-Powered Document Orchestrator: a model of [app.py]

    The script is glue between a PDF text extractor, a hosted language
    model, and an n8n webhook.  Its own logic is string composition, the
    clean-up of the model's reply, the shape of the extraction result,
    the webhook payload and the normalisation of the webhook's answer.
    These are embedded below; the remote services and the libraries are
    arguments of the functions that call them. *)

From Stdlib Require Import Ascii String DecimalString List ZArith NArith Lia Bool.
Import ListNotations.

Set Warnings "-register-all".

(* ================================================================== *)
(** ** Python strings *)

(** A Python [str] is a sequence of Unicode code points. *)
Module PyStr.

Definition codepoint := N.
Definition str := list codepoint.

(** [lit] reads an ASCII literal of this file as a [str]. *)
Definition lit (s : string) : str :=
  map N_of_ascii (list_ascii_of_string s).

Definition NL : codepoint := 10%N.      (* "\n" *)
Definition DQ : codepoint := 34%N.      (* the double quote *)
Definition BQ : codepoint := 96%N.      (* the backtick *)

(** [jlit] is [lit] with every apostrophe read as a double quote, so
    that JSON text can be written down. *)
Definition jlit (s : string) : str :=
  map (fun c => if N.eqb c 39 then DQ else c) (lit s).

Definition str_eqb (a b : str) : bool :=
  if list_eq_dec N.eq_dec a b then true else false.

(** [str.isspace] on one character: the characters [str.strip()]
    removes. *)
Definition is_space (c : codepoint) : bool :=
  ((9 <=? c) && (c <=? 13) || (28 <=? c) && (c <=? 32)
   || (c =? 133) || (c =? 160) || (c =? 5760)
   || (8192 <=? c) && (c <=? 8202)
   || (c =? 8232) || (c =? 8233) || (c =? 8239) || (c =? 8287)
   || (c =? 12288))%N.

Fixpoint lstrip (s : str) : str :=
  match s with
  | c :: t => if is_space c then lstrip t else s
  | [] => []
  end.

Definition rstrip (s : str) : str := rev (lstrip (rev s)).

(** [s.strip()] *)
Definition strip (s : str) : str := rstrip (lstrip s).

(** [s.startswith(p)] *)
Fixpoint startswith (p s : str) : bool :=
  match p, s with
  | [], _ => true
  | a :: p', b :: s' => N.eqb a b && startswith p' s'
  | _ :: _, [] => false
  end.

(** [s.replace(old, new)] scans [s] from the left; at an occurrence of
    [old] it emits [new] and resumes after the occurrence, otherwise it
    copies one character.  [skip] counts the characters of an occurrence
    still to be passed over. *)
Fixpoint replace_from (old new : str) (skip : nat) (s : str) : str :=
  match s with
  | [] => []
  | c :: t =>
      match skip with
      | S k => replace_from old new k t
      | O => if startswith old s
             then new ++ replace_from old new (length old - 1) t
             else c :: replace_from old new 0 t
      end
  end.

Definition replace (old new s : str) : str :=
  match old with
  | [] => new ++ flat_map (fun c => c :: new) s
  | _ :: _ => replace_from old new 0 s
  end.

(** [sep.join(chunks)] *)
Fixpoint join (sep : str) (chunks : list str) : str :=
  match chunks with
  | [] => []
  | [c] => c
  | c :: rest => c ++ sep ++ join sep rest
  end.

(** [s[:n]] for a constant [n >= 0] *)
Definition slice_to (n : Z) (s : str) : str := firstn (Z.to_nat n) s.

(** [len(s)] *)
Definition len (s : str) : Z := Z.of_nat (length s).

(** [needle in s] *)
Fixpoint contains (needle s : str) : bool :=
  startswith needle s ||
  match s with
  | [] => false
  | _ :: t => contains needle t
  end.

End PyStr.
Import PyStr.

(* ================================================================== *)
(** ** Results of calls that may raise *)

(** A call either returns or raises; [msg] is [str(e)] of the exception. *)
Inductive outcome (A : Type) : Type :=
| Ok (a : A)
| Raise (msg : str).
Arguments Ok {A} a.
Arguments Raise {A} msg.

Definition bind {A B : Type} (x : outcome A) (k : A -> outcome B) : outcome B :=
  match x with
  | Ok a => k a
  | Raise m => Raise m
  end.

Notation "x <- e ;; k" := (bind e (fun x => k))
  (at level 61, e at next level, right associativity).
Notation "' p <- e ;; k" := (bind e (fun x => match x with p => k end))
  (at level 61, p pattern, e at next level, right associativity).

(* ================================================================== *)
(** ** JSON values as Python objects *)

Module Json.

(** What [json.loads] and [Response.json()] build: [None], [bool],
    [int], [float], [str], [list] and [dict].  A dict is kept as its
    items in insertion order.  A finite float is kept as the decimal
    number [m * 10^e] it was read from; Python holds the nearest
    binary64 value of it. *)
Inductive json : Type :=
| JNull
| JBool (b : bool)
| JInt (z : Z)
| JFloat (m e : Z)
| JNaN
| JInf (negative : bool)
| JStr (s : str)
| JList (items : list json)
| JDict (items : list (str * json)).

Definition dict := list (str * json).

(** [d.get(k)], as an option *)
Fixpoint dict_get (k : str) (d : dict) : option json :=
  match d with
  | [] => None
  | (k', v) :: rest => if str_eqb k k' then Some v else dict_get k rest
  end.

(** [d[k] = v]: an existing key keeps its place *)
Fixpoint dict_set (k : str) (v : json) (d : dict) : dict :=
  match d with
  | [] => [(k, v)]
  | (k', v') :: rest =>
      if str_eqb k k' then (k', v) :: rest else (k', v') :: dict_set k v rest
  end.

(** The decimal [m * 10^e] rounds to the float zero iff its magnitude is
    at most [2^-1075], half of the least positive binary64 number. *)
Definition float_is_zero (m e : Z) : bool :=
  if (m =? 0)%Z then true
  else if (0 <=? e)%Z then false
  else (Z.abs m * 2 ^ 1075 <=? 10 ^ (- e))%Z.

(** [bool(v)] *)
Definition truthy (v : json) : bool :=
  match v with
  | JNull => false
  | JBool b => b
  | JInt z => negb (z =? 0)%Z
  | JFloat m e => negb (float_is_zero m e)
  | JNaN | JInf _ => true
  | JStr s => match s with [] => false | _ => true end
  | JList l => match l with [] => false | _ => true end
  | JDict d => match d with [] => false | _ => true end
  end.

(** *** [json.dumps] with its default options *)

Definition hex_digit (n : N) : codepoint :=
  (if n <? 10 then 48 + n else 87 + n)%N.

Definition u_escape (u : N) : str :=
  [92; 117; hex_digit (u / 4096 mod 16); hex_digit (u / 256 mod 16);
   hex_digit (u / 16 mod 16); hex_digit (u mod 16)]%N.

(** One character of a string under [ensure_ascii=True]. *)
Definition escape_char (c : codepoint) : str :=
  (if c =? 34 then [92; 34]
   else if c =? 92 then [92; 92]
   else if c =? 10 then [92; 110]
   else if c =? 13 then [92; 114]
   else if c =? 9 then [92; 116]
   else if c =? 8 then [92; 98]
   else if c =? 12 then [92; 102]
   else if (32 <=? c) && (c <=? 126) then [c]
   else if c <? 65536 then u_escape c
   else u_escape (55296 + (c - 65536) / 1024)
        ++ u_escape (56320 + (c - 65536) mod 1024))%N.

Definition dumps_str (s : str) : str := DQ :: flat_map escape_char s ++ [DQ].

Definition dumps_int (z : Z) : str :=
  lit (NilZero.string_of_int (Z.to_int z)).

(** A finite float is written here as the decimal it was read from;
    Python writes the shortest decimal of the binary64 value. *)
Fixpoint json_dumps (v : json) : str :=
  match v with
  | JNull => lit "null"
  | JBool true => lit "true"
  | JBool false => lit "false"
  | JInt z => dumps_int z
  | JFloat m e => dumps_int m ++ lit "e" ++ dumps_int e
  | JNaN => lit "NaN"
  | JInf false => lit "Infinity"
  | JInf true => lit "-Infinity"
  | JStr s => dumps_str s
  | JList items =>
      lit "[" ++ join (lit ", ") (map json_dumps items) ++ lit "]"
  | JDict items =>
      lit "{"
      ++ join (lit ", ")
           (map (fun kv => dumps_str (fst kv) ++ lit ": " ++ json_dumps (snd kv))
                items)
      ++ lit "}"
  end.

End Json.
Import Json.

(* ================================================================== *)
(** ** A reference [json.loads] *)

(** The decoder of Python's [json] module, for the concrete runs below:
    the grammar, the escapes, the numbers and the constants it accepts.
    An error carries the decoder's message without its position suffix
    (": line l column c (char p)").  Python's recursion limit and its
    limit on the digits of an [int] are not modelled, and a number
    beyond the range of a float stays the decimal it was read from,
    where Python gives infinity.  The general statements about [call_gemini] are made for
    an arbitrary decoder and do not depend on this one. *)
Module JsonDecoder.

Local Open Scope N_scope.

Fixpoint skip_ws (s : str) : str :=
  match s with
  | c :: t =>
      if (c =? 32) || (c =? 9) || (c =? 10) || (c =? 13) then skip_ws t else s
  | [] => []
  end.

Definition is_digit (c : codepoint) : bool := (48 <=? c) && (c <=? 57).

Definition hex_val (c : codepoint) : option N :=
  if is_digit c then Some (c - 48)
  else if (97 <=? c) && (c <=? 102) then Some (c - 87)
  else if (65 <=? c) && (c <=? 70) then Some (c - 55)
  else None.

(** Four hexadecimal digits, as after a backslash and a [u]. *)
Definition hex4 (s : str) : option (N * str) :=
  match s with
  | a :: b :: c :: d :: t =>
      match hex_val a, hex_val b, hex_val c, hex_val d with
      | Some x, Some y, Some z, Some w =>
          Some (((x * 16 + y) * 16 + z) * 16 + w, t)
      | _, _, _, _ => None
      end
  | _ => None
  end.

Fixpoint span_digits (s : str) : str * str :=
  match s with
  | c :: t =>
      if is_digit c then let (ds, r) := span_digits t in (c :: ds, r)
      else ([], s)
  | [] => ([], [])
  end.

Definition digits_value (ds : str) : Z :=
  fold_left (fun acc c => (acc * 10 + Z.of_N (c - 48))%Z) ds 0%Z.

Definition out_of_fuel : str := lit "decoder fuel exhausted".

(** The body of a string, after its opening quote; [acc] holds the
    characters read so far, last first. *)
Fixpoint scan_string (fuel : nat) (s acc : str) : outcome (str * str) :=
  match fuel with
  | O =>
      match s with
      | [] => Raise (lit "Unterminated string starting at")
      | _ => Raise out_of_fuel
      end
  | S f =>
      match s with
      | [] => Raise (lit "Unterminated string starting at")
      | c :: t =>
          if c =? 34 then Ok (rev acc, t)
          else if c =? 92 then
            match t with
            | [] => Raise (lit "Unterminated string starting at")
            | e :: t1 =>
                if e =? 117 then
                  match hex4 t1 with
                  | None => Raise (lit "Invalid \uXXXX escape")
                  | Some (u, t2) =>
                      if (55296 <=? u) && (u <=? 56319) then
                        match t2 with
                        | 92 :: 117 :: t3 =>
                            match hex4 t3 with
                            | None => Raise (lit "Invalid \uXXXX escape")
                            | Some (u2, t4) =>
                                if (56320 <=? u2) && (u2 <=? 57343)
                                then scan_string f t4
                                       (65536 + (u - 55296) * 1024 + (u2 - 56320)
                                        :: acc)
                                else scan_string f t2 (u :: acc)
                            end
                        | _ => scan_string f t2 (u :: acc)
                        end
                      else scan_string f t2 (u :: acc)
                  end
                else if (e =? 34) || (e =? 92) || (e =? 47)
                then scan_string f t1 (e :: acc)
                else if e =? 98 then scan_string f t1 (8 :: acc)
                else if e =? 102 then scan_string f t1 (12 :: acc)
                else if e =? 110 then scan_string f t1 (10 :: acc)
                else if e =? 114 then scan_string f t1 (13 :: acc)
                else if e =? 116 then scan_string f t1 (9 :: acc)
                else Raise (lit "Invalid \escape")
            end
          else if c <? 32 then Raise (lit "Invalid control character at")
          else scan_string f t (c :: acc)
      end
  end.

(** A number: an optional minus sign; a zero, or a digit from 1 to 9
    and more digits; an optional fraction, a dot and one digit or more;
    an optional exponent, [e] or [E], an optional sign and one digit or
    more.  It is an [int] when it has neither fraction nor exponent. *)
Definition match_number (s : str) : option (json * str) :=
  let (neg, s1) := match s with
                   | 45 :: t => (true, t)
                   | _ => (false, s)
                   end in
  let int_part :=
    match s1 with
    | c :: t =>
        if (49 <=? c) && (c <=? 57) then Some (span_digits s1)
        else if c =? 48 then Some ([c], t)
        else None
    | [] => None
    end in
  match int_part with
  | None => None
  | Some (ids, r) =>
      let (fds, r1) :=
        match r with
        | 46 :: ((d :: _) as r') =>
            if is_digit d then span_digits r' else ([], r)
        | _ => ([], r)
        end in
      let exp_part :=
        match r1 with
        | e :: r2 =>
            if (e =? 101) || (e =? 69) then
              let (eneg, r3) := match r2 with
                                | 45 :: t => (true, t)
                                | 43 :: t => (false, t)
                                | _ => (false, r2)
                                end in
              match r3 with
              | d :: _ =>
                  if is_digit d then
                    let (eds, r4) := span_digits r3 in
                    Some ((if eneg then - digits_value eds
                           else digits_value eds)%Z, r4)
                  else None
              | [] => None
              end
            else None
        | [] => None
        end in
      let signed (z : Z) := (if neg then - z else z)%Z in
      match fds, exp_part with
      | [], None => Some (JInt (signed (digits_value ids)), r1)
      | _, None =>
          Some (JFloat (signed (digits_value (ids ++ fds)))
                       (- Z.of_nat (length fds)), r1)
      | _, Some (ex, r4) =>
          Some (JFloat (signed (digits_value (ids ++ fds)))
                       (ex - Z.of_nat (length fds)), r4)
      end
  end.

Definition keyword (s : str) : option (json * str) :=
  if startswith (lit "null") s then Some (JNull, skipn 4 s)
  else if startswith (lit "true") s then Some (JBool true, skipn 4 s)
  else if startswith (lit "false") s then Some (JBool false, skipn 5 s)
  else if startswith (lit "NaN") s then Some (JNaN, skipn 3 s)
  else if startswith (lit "Infinity") s then Some (JInf false, skipn 8 s)
  else if startswith (lit "-Infinity") s then Some (JInf true, skipn 9 s)
  else match_number s.

(** One value at the head of [s]; [parse_elems] reads the elements of an
    array after its bracket, [parse_members] the members of an object
    after its brace. *)
Fixpoint parse_value (fuel : nat) (s : str) {struct fuel}
  : outcome (json * str) :=
  match fuel with
  | O => Raise out_of_fuel
  | S f =>
      match s with
      | [] => Raise (lit "Expecting value")
      | c :: t =>
          if c =? 34 then
            ' (x, r) <- scan_string (length t) t [] ;; Ok (JStr x, r)
          else if c =? 123 then
            match skip_ws t with
            | 125 :: r => Ok (JDict [], r)
            | t' => ' (d, r) <- parse_members f t' [] ;; Ok (JDict d, r)
            end
          else if c =? 91 then
            match skip_ws t with
            | 93 :: r => Ok (JList [], r)
            | t' => ' (l, r) <- parse_elems f t' [] ;; Ok (JList l, r)
            end
          else match keyword s with
               | Some res => Ok res
               | None => Raise (lit "Expecting value")
               end
      end
  end
with parse_elems (fuel : nat) (s : str) (acc : list json) {struct fuel}
  : outcome (list json * str) :=
  match fuel with
  | O => Raise out_of_fuel
  | S f =>
      ' (v, r) <- parse_value f s ;;
      match skip_ws r with
      | 93 :: r1 => Ok (rev (v :: acc), r1)
      | 44 :: r1 => parse_elems f (skip_ws r1) (v :: acc)
      | _ => Raise (lit "Expecting ',' delimiter")
      end
  end
with parse_members (fuel : nat) (s : str) (acc : dict) {struct fuel}
  : outcome (dict * str) :=
  match fuel with
  | O => Raise out_of_fuel
  | S f =>
      match s with
      | 34 :: t =>
          ' (k, r) <- scan_string (length t) t [] ;;
          match skip_ws r with
          | 58 :: r1 =>
              ' (v, r2) <- parse_value f (skip_ws r1) ;;
              let acc' := dict_set k v acc in
              match skip_ws r2 with
              | 125 :: r3 => Ok (acc', r3)
              | 44 :: r3 => parse_members f (skip_ws r3) acc'
              | _ => Raise (lit "Expecting ',' delimiter")
              end
          | _ => Raise (lit "Expecting ':' delimiter")
          end
      | _ => Raise (lit "Expecting property name enclosed in double quotes")
      end
  end.

(** [json.loads(s)] *)
Definition json_loads (s : str) : outcome json :=
  if startswith [65279] s
  then Raise (lit "Unexpected UTF-8 BOM (decode using utf-8-sig)")
  else
    ' (v, r) <- parse_value (2 * length s + 4) (skip_ws s) ;;
    match skip_ws r with
    | [] => Ok v
    | _ :: _ => Raise (lit "Extra data")
    end.

End JsonDecoder.
Import JsonDecoder.

(* ================================================================== *)
(** ** The script *)

Definition bytes := list Byte.byte.

(** The libraries and remote services the script calls.  Each is a
    function of what the script passes to it.
    - [pdfplumber_open b]: [pdfplumber.open(io.BytesIO(b))] and, page by
      page, [page.extract_text()], which gives [None] or a text;
    - [fitz_open b]: [import fitz], [fitz.open(stream=b, filetype="pdf")]
      and, page by page, [page.get_text()];
    - [decode_utf8_replace b]: [b.decode("utf-8", errors="replace")];
    - [genai_chat_create content]: the chat call with the one user
      message [content], then [response.candidates[0].content[0].text];
    - [loads]: [json.loads];
    - [requests_post_json url payload]: [requests.post(url, json=payload,
      ...)], [raise_for_status()] and [r.json()];
    - [py_repr v]: [str(v)] of a value that is not a [str];
    - [str_lower]: [s.lower()]. *)
Record services : Type := {
  pdfplumber_open : bytes -> outcome (list (outcome (option str)));
  fitz_open : bytes -> outcome (list (outcome str));
  decode_utf8_replace : bytes -> str;
  genai_chat_create : str -> outcome str;
  loads : str -> outcome json;
  requests_post_json : str -> json -> outcome json;
  py_repr : json -> str;
  str_lower : str -> str
}.

(** What the script does to the outside: Streamlit calls and the two
    remote calls, in the order they are issued. *)
Inductive event : Type :=
| st_error (body : str)
| st_warning (body : str)
| st_success (body : str)
| st_info (body : json)
| st_code (body : json)
| st_json (body : json)
| st_subheader (body : str)
| st_expander (label : str)
| st_spinner (text : str)
| st_stop
| genai_call (content : str)
| http_post (url : str) (payload : json) (timeout : Z).

(** *** Text extraction *)

(** The loop over [pdf.pages]: a page with a non-empty text adds a
    chunk; an exception leaves the loop with the chunks added so far. *)
Fixpoint pdfplumber_pages (pages : list (outcome (option str)))
         (text_chunks : list str) : list str * option str :=
  match pages with
  | [] => (text_chunks, None)
  | Ok (Some ((_ :: _) as t)) :: rest => pdfplumber_pages rest (text_chunks ++ [t])
  | Ok _ :: rest => pdfplumber_pages rest text_chunks
  | Raise e :: _ => (text_chunks, Some e)
  end.

(** The loop over [doc]: every page adds its text. *)
Fixpoint fitz_pages (pages : list (outcome str)) (text_chunks : list str)
  : list str * option str :=
  match pages with
  | [] => (text_chunks, None)
  | Ok t :: rest => fitz_pages rest (text_chunks ++ [t])
  | Raise e :: _ => (text_chunks, Some e)
  end.

Definition extract_text_from_pdf (w : services) (file_bytes : bytes)
  : str * list event :=
  let (text_chunks, failure) :=
    match pdfplumber_open w file_bytes with
    | Ok pages => pdfplumber_pages pages []
    | Raise e => ([], Some e)
    end in
  match failure with
  | None => (join [NL; NL] text_chunks, [])
  | Some e =>
      let warned := st_warning (lit "pdfplumber failed: " ++ e) in
      let fallback :=
        match fitz_open w file_bytes with
        | Ok pages => fitz_pages pages text_chunks
        | Raise e2 => (text_chunks, Some e2)
        end in
      match fallback with
      | (text_chunks', None) => (join [NL; NL] text_chunks', [warned])
      | (_, Some e2) =>
          ([], [warned; st_error (lit "PDF extraction fallback failed: " ++ e2)])
      end
  end.

Definition extract_text_from_txt (w : services) (file_bytes : bytes) : str :=
  decode_utf8_replace w file_bytes.

(** *** Gemini extraction *)

Definition jstr (s : string) : json := JStr (lit s).
Definition typed (t : string) : json := JDict [(lit "type", jstr t)].

Definition INVOICE_SCHEMA : json :=
  JDict
    [(lit "title", jstr "InvoiceExtraction");
     (lit "type", jstr "object");
     (lit "properties",
       JDict
         [(lit "extracted_pairs",
            JDict
              [(lit "type", jstr "array");
               (lit "items",
                 JDict
                   [(lit "type", jstr "object");
                    (lit "properties",
                      JDict [(lit "key", typed "string");
                             (lit "value", typed "string");
                             (lit "confidence", typed "number");
                             (lit "reason", typed "string")]);
                    (lit "required", JList [jstr "key"; jstr "value"])])]);
          (lit "risk_level", typed "string");
          (lit "summary", typed "string")]);
     (lit "required", JList [jstr "extracted_pairs"])].

Definition SYSTEM_PROMPT : str :=
  lit "You are an assistant that MUST output only valid JSON matching the provided schema. "
  ++ lit "You will be given an INVOICE document and a USER QUESTION. "
  ++ lit "Identify the 5" ++ [8211%N]
  ++ lit "8 most relevant key/value pairs that help answer the user's question. "
  ++ lit "For each pair, include 'reason' and 'confidence' (0.0 - 1.0). "
  ++ lit "Determine the 'risk_level' based on the invoice total amount as follows: "
  ++ lit "High: total amount greater than 50,000; "
  ++ lit "Medium: total amount between 5,000 and 50,000; "
  ++ lit "Low: total amount less than 5,000; "
  ++ lit "Use 'Unknown' if the total amount cannot be determined. "
  ++ lit "Also include a short 'summary' of the invoice.".

(** The prompt composed at the head of [call_gemini]. *)
Definition user_prompt (document_text user_question : str) : str :=
  lit "DOCUMENT:" ++ [NL; DQ; DQ; DQ] ++ slice_to 30000 document_text
  ++ [DQ; DQ; DQ; NL; NL]
  ++ lit "USER QUESTION:" ++ [NL; DQ; DQ; DQ] ++ user_question
  ++ [DQ; DQ; DQ; NL; NL]
  ++ lit "SCHEMA:" ++ [NL] ++ json_dumps INVOICE_SCHEMA ++ [NL; NL]
  ++ lit "STRICT RULES:" ++ [NL]
  ++ lit "- Output ONLY valid JSON." ++ [NL]
  ++ lit "- Do NOT use backticks." ++ [NL]
  ++ lit "- Do NOT return markdown." ++ [NL]
  ++ lit "- Do NOT explain." ++ [NL]
  ++ lit "- Only return JSON matching the schema." ++ [NL].

(** The content of the one message sent to the model. *)
Definition request_content (document_text user_question : str) : str :=
  SYSTEM_PROMPT ++ [NL; NL] ++ user_prompt document_text user_question.

Definition FENCE_JSON : str := lit "```json".
Definition FENCE : str := lit "```".

(** [raw_text.strip()], then [.replace(FENCE_JSON, empty)], then
    [.replace(FENCE, empty)], then [.strip()] *)
Definition cleaned (raw_text : str) : str :=
  strip (replace FENCE [] (replace FENCE_JSON [] (strip raw_text))).

Definition call_gemini (w : services) (document_text user_question : str)
  : json * list event :=
  let content := request_content document_text user_question in
  let result :=
    match genai_chat_create w content with
    | Raise e =>
        JDict [(lit "error", JStr (lit "Gemini API call failed: " ++ e))]
    | Ok raw_text =>
        match loads w (cleaned raw_text) with
        | Ok v => v
        | Raise e =>
            JDict [(lit "raw_output", JStr (cleaned raw_text));
                   (lit "parse_error", JStr e)]
        end
    end in
  (result, [genai_call content]).

(** *** Email automation *)

(** The dict sent to the webhook. *)
Definition payload (raw_text : str) (extraction : json)
           (user_question recipient file_name : str) : json :=
  JDict [(lit "document_text", JStr (slice_to 50000 raw_text));
         (lit "extracted_json", extraction);
         (lit "user_question", JStr user_question);
         (lit "recipient_email", JStr recipient);
         (lit "file_name", JStr file_name)].

Definition type_name (v : json) : str :=
  match v with
  | JNull => lit "NoneType"
  | JBool _ => lit "bool"
  | JInt _ => lit "int"
  | JFloat _ _ | JNaN | JInf _ => lit "float"
  | JStr _ => lit "str"
  | JList _ => lit "list"
  | JDict _ => lit "dict"
  end.

(** [str(e)] of the [AttributeError] that [v.get] raises on a [v]
    without that method. *)
Definition no_get (v : json) : str :=
  lit "'" ++ type_name v ++ lit "' object has no attribute 'get'".

(** [v.get(k, default)] *)
Definition get_default (v : json) (k : str) (default : json) : outcome json :=
  match v with
  | JDict d => Ok (match dict_get k d with Some x => x | None => default end)
  | JNull | JBool _ | JInt _ | JFloat _ _ | JNaN | JInf _ | JStr _ | JList _ =>
      Raise (no_get v)
  end.

(** [v.get(k)] *)
Definition get (v : json) (k : str) : outcome json := get_default v k JNull.

(** The value bound to [n8n_data]. *)
Definition n8n_data (n8n_resp : json) : outcome json :=
  match n8n_resp with
  | JList [] => Ok (JDict [])
  | JList (first :: _) => get_default first (lit "json") first
  | JDict _ => get_default n8n_resp (lit "json") n8n_resp
  | JNull | JBool _ | JInt _ | JFloat _ _ | JNaN | JInf _ | JStr _ =>
      Ok (JDict [])
  end.

(** [data.get(a) or data.get(b)] *)
Definition get_or (data : json) (a b : str) : outcome json :=
  x <- get data a ;;
  if truthy x then Ok x else get data b.

Definition final_answer (data : json) : outcome json :=
  get_or data (lit "final_answer") (lit "finalAnswer").
Definition email_body (data : json) : outcome json :=
  get_or data (lit "email_body") (lit "emailBody").
Definition status (data : json) : outcome json :=
  get_or data (lit "automation_status") (lit "status").

(** [str(v)] *)
Definition py_str (w : services) (v : json) : str :=
  match v with
  | JStr s => s
  | _ => py_repr w v
  end.

Definition SENT_WORDS : list str := [lit "sent"; lit "ok"; lit "succeeded"; lit "true"].

(** The block under "Process n8n response". *)
Definition process_n8n_response (w : services) (n8n_resp : json) : list event :=
  let read :=
    data <- n8n_data n8n_resp ;;
    fa <- final_answer data ;;
    eb <- email_body data ;;
    st <- status data ;;
    Ok (fa, eb, st) in
  match read with
  | Ok (fa, eb, st) =>
      [st_expander (lit "Final Analytical Answer");
       st_info (if truthy fa then fa
                else jstr "No analytical answer returned by n8n");
       st_expander (lit "Generated Email Body");
       st_code (if truthy eb then eb else jstr "No email body returned");
       st_expander (lit "Email Automation Status");
       if truthy st then
         if existsb (str_eqb (str_lower w (py_str w st))) SENT_WORDS
         then st_success (lit "Email Status: " ++ py_str w st)
         else st_warning (lit "Email Status: " ++ py_str w st)
       else st_info (jstr "No automation status returned by n8n")]
  | Raise e =>
      [st_error (lit "Error processing n8n response: " ++ e);
       st_subheader (lit "Raw n8n Response");
       st_json n8n_resp]
  end.

(** The branch under [if send_button:]. *)
Definition send_alert (w : services) (N8N_WEBHOOK : str) (send_button : bool)
           (recipient raw_text : str) (extraction : json)
           (user_question file_name : str) : list event :=
  if send_button then
    match recipient with
    | [] => [st_warning (lit "Please provide a recipient email before sending.")]
    | _ :: _ =>
        let body := payload raw_text extraction user_question recipient file_name in
        let (n8n_resp, shown) :=
          match requests_post_json w N8N_WEBHOOK body with
          | Ok v => (v, st_success (lit "Webhook called successfully."))
          | Raise e =>
              (JDict [(lit "error", JStr e)],
               st_error (lit "Failed to call n8n webhook: " ++ e))
          end in
        [st_spinner (lit "Calling n8n webhook..."); http_post N8N_WEBHOOK body 60;
         shown]
        ++ process_n8n_response w n8n_resp
    end
  else [].

(** [s.endswith(p)] *)
Definition endswith (p s : str) : bool := startswith (rev p) (rev s).

(** One run of the script after the page header: the secrets, the
    uploaded file (its name and content), the question, the recipient
    field and whether the button was pressed. *)
Definition script (w : services) (GEMINI_API_KEY N8N_WEBHOOK_URL : option str)
           (uploaded_file : option (str * bytes))
           (user_question recipient : str) (send_button : bool) : list event :=
  match GEMINI_API_KEY, N8N_WEBHOOK_URL with
  | Some _, Some N8N_WEBHOOK =>
      match uploaded_file, user_question with
      | Some (name, file_bytes), _ :: _ =>
          let (raw_text, shown) :=
            if endswith (lit ".pdf") (str_lower w name)
            then extract_text_from_pdf w file_bytes
            else (extract_text_from_txt w file_bytes, []) in
          match raw_text with
          | [] =>
              shown ++ [st_error (lit "No text extracted from the document."); st_stop]
          | _ :: _ =>
              let (extraction, called) := call_gemini w raw_text user_question in
              shown
              ++ [st_expander (lit "Document Preview (first 2000 chars)");
                  st_code (JStr (slice_to 2000 raw_text
                                 ++ if (len raw_text >? 2000)%Z
                                    then lit "..." ++ [NL; NL] ++ lit "[truncated]"
                                    else []));
                  st_info (jstr "Running Gemini dynamic extraction...")]
              ++ called
              ++ [st_success (lit "Extraction complete.");
                  st_subheader (lit "Structured Data Extracted (JSON)");
                  st_json extraction;
                  st_subheader (lit "Email Automation (n8n)")]
              ++ send_alert w N8N_WEBHOOK send_button recipient raw_text
                   extraction user_question name
          end
      | _, _ =>
          [st_info (JStr ([8505; 65039; 32]%N
                          ++ lit "Upload an invoice and ask a question to begin."))]
      end
  | _, _ =>
      [st_error (lit "Missing secrets. Add GEMINI_API_KEY and N8N_WEBHOOK_URL to Streamlit Cloud Secrets.");
       st_stop]
  end.

(* ================================================================== *)
(** ** A reference UTF-8 decoder *)

(** [b.decode("utf-8", errors="replace")] as Python does it: a
    well-formed sequence gives its character; an ill-formed one gives
    U+FFFD for its longest prefix that begins a well-formed sequence, or
    for its first byte when there is no such prefix, and decoding goes
    on after that.  It stands for [decode_utf8_replace] where a property
    depends on what decoding does. *)
Module Utf8.

Local Open Scope N_scope.

Definition REPLACEMENT : codepoint := 65533.

Definition continuation (b : N) : bool := (128 <=? b) && (b <=? 191).

(** The second byte allowed after the lead byte of a three-byte
    sequence. *)
Definition second_of_three (b0 b1 : N) : bool :=
  if b0 =? 224 then (160 <=? b1) && (b1 <=? 191)
  else if b0 =? 237 then (128 <=? b1) && (b1 <=? 159)
  else continuation b1.

(** The second byte allowed after the lead byte of a four-byte
    sequence. *)
Definition second_of_four (b0 b1 : N) : bool :=
  if b0 =? 240 then (144 <=? b1) && (b1 <=? 191)
  else if b0 =? 244 then (128 <=? b1) && (b1 <=? 143)
  else continuation b1.

Fixpoint decode_values (bs : list N) : str :=
  match bs with
  | [] => []
  | b0 :: t0 =>
      if b0 <? 128 then b0 :: decode_values t0
      else if (194 <=? b0) && (b0 <=? 223) then
        match t0 with
        | b1 :: t1 =>
            if continuation b1
            then (b0 - 192) * 64 + (b1 - 128) :: decode_values t1
            else REPLACEMENT :: decode_values t0
        | [] => [REPLACEMENT]
        end
      else if (224 <=? b0) && (b0 <=? 239) then
        match t0 with
        | b1 :: t1 =>
            if second_of_three b0 b1 then
              match t1 with
              | b2 :: t2 =>
                  if continuation b2
                  then (b0 - 224) * 4096 + (b1 - 128) * 64 + (b2 - 128)
                       :: decode_values t2
                  else REPLACEMENT :: decode_values t1
              | [] => [REPLACEMENT]
              end
            else REPLACEMENT :: decode_values t0
        | [] => [REPLACEMENT]
        end
      else if (240 <=? b0) && (b0 <=? 244) then
        match t0 with
        | b1 :: t1 =>
            if second_of_four b0 b1 then
              match t1 with
              | b2 :: t2 =>
                  if continuation b2 then
                    match t2 with
                    | b3 :: t3 =>
                        if continuation b3
                        then (b0 - 240) * 262144 + (b1 - 128) * 4096
                             + (b2 - 128) * 64 + (b3 - 128)
                             :: decode_values t3
                        else REPLACEMENT :: decode_values t2
                    | [] => [REPLACEMENT]
                    end
                  else REPLACEMENT :: decode_values t1
              | [] => [REPLACEMENT]
              end
            else REPLACEMENT :: decode_values t0
        | [] => [REPLACEMENT]
        end
      else REPLACEMENT :: decode_values t0
  end.

Definition utf8_decode_replace (b : bytes) : str :=
  decode_values (map Byte.to_N b).

End Utf8.
Import Utf8.

(* ================================================================== *)
(** ** The specification's notions *)

(** The text of a PDF as the specification words it: the page texts in
    page order, pages without text left out, joined by a blank line. *)
Definition spec_page_concat (page_texts : list str) : str :=
  join [NL; NL] (filter (fun t => match t with [] => false | _ => true end) page_texts).

(** The text of a page as [pdfplumber] gives it, [None] read as empty. *)
Definition page_text (t : option str) : str :=
  match t with Some s => s | None => [] end.

(** The reply clean-up as the specification words it: every occurrence
    of the tagged fence removed from the reply, then every occurrence of
    the fence, then the surrounding whitespace. *)
Definition spec_cleaned (r : str) : str :=
  strip (replace FENCE [] (replace FENCE_JSON [] r)).

(** A text of whitespace only. *)
Definition spaces (s : str) : Prop := Forall (fun c => is_space c = true) s.

(** The three shapes of an extraction result. *)
Definition is_error_shape (v : json) : bool :=
  match v with
  | JDict [(k, JStr _)] => str_eqb k (lit "error")
  | _ => false
  end.

Definition is_str (v : option json) : bool :=
  match v with Some (JStr _) => true | _ => false end.

Definition is_raw_output_shape (v : json) : bool :=
  match v with
  | JDict d =>
      Nat.eqb (length d) 2
      && is_str (dict_get (lit "raw_output") d)
      && is_str (dict_get (lit "parse_error") d)
  | _ => false
  end.

Definition absent_or (p : json -> bool) (v : option json) : bool :=
  match v with Some x => p x | None => true end.

Definition is_string (v : json) : bool :=
  match v with JStr _ => true | _ => false end.

Definition is_number (v : json) : bool :=
  match v with JInt _ | JFloat _ _ | JNaN | JInf _ => true | _ => false end.

(** An item of [extracted_pairs] under [INVOICE_SCHEMA]. *)
Definition conforms_pair (v : json) : bool :=
  match v with
  | JDict d =>
      is_str (dict_get (lit "key") d)
      && is_str (dict_get (lit "value") d)
      && absent_or is_number (dict_get (lit "confidence") d)
      && absent_or is_string (dict_get (lit "reason") d)
  | _ => false
  end.

(** A value that validates against [INVOICE_SCHEMA]. *)
Definition conforms_schema (v : json) : bool :=
  match v with
  | JDict d =>
      match dict_get (lit "extracted_pairs") d with
      | Some (JList pairs) => forallb conforms_pair pairs
      | _ => false
      end
      && absent_or is_string (dict_get (lit "risk_level") d)
      && absent_or is_string (dict_get (lit "summary") d)
  | _ => false
  end.

Definition has_result_shape (v : json) : bool :=
  is_error_shape v || is_raw_output_shape v || conforms_schema v.

(** The risk level of a total amount as the specification words it;
    [None] is a total that is absent or cannot be read. *)
Definition spec_risk_level (total : option Z) : str :=
  match total with
  | None => lit "Unknown"
  | Some t =>
      if (50000 <? t)%Z then lit "High"
      else if (5000 <=? t)%Z then lit "Medium"
      else lit "Low"
  end.

(** The prompt around the document: what precedes it and what follows. *)
Definition prompt_before : str := lit "DOCUMENT:" ++ [NL; DQ; DQ; DQ].

Definition prompt_after (user_question : str) : str :=
  [DQ; DQ; DQ; NL; NL]
  ++ lit "USER QUESTION:" ++ [NL; DQ; DQ; DQ] ++ user_question
  ++ [DQ; DQ; DQ; NL; NL]
  ++ lit "SCHEMA:" ++ [NL] ++ json_dumps INVOICE_SCHEMA ++ [NL; NL]
  ++ lit "STRICT RULES:" ++ [NL]
  ++ lit "- Output ONLY valid JSON." ++ [NL]
  ++ lit "- Do NOT use backticks." ++ [NL]
  ++ lit "- Do NOT return markdown." ++ [NL]
  ++ lit "- Do NOT explain." ++ [NL]
  ++ lit "- Only return JSON matching the schema." ++ [NL].

(** The webhook calls among the events of a run. *)
Definition is_http_post (e : event) : bool :=
  match e with http_post _ _ _ => true | _ => false end.

Definition http_calls (evs : list event) : list event := filter is_http_post evs.

(** *** Services for the concrete runs *)

(** [s.lower()] on ASCII text. *)
Definition ascii_lower (s : str) : str :=
  map (fun c => if (65 <=? c) && (c <=? 90) then c + 32 else c)%N s.

(** [str(v)] for [None], a [bool] or an [int]; the other values stand
    as their JSON text, which the runs below never show. *)
Definition plain_repr (v : json) : str :=
  match v with
  | JNull => lit "None"
  | JBool true => lit "True"
  | JBool false => lit "False"
  | _ => json_dumps v
  end.

(** Nothing answers: every library call and remote call raises. *)
Definition offline : services :=
  {| pdfplumber_open := fun _ => Raise (lit "No /Root object! - Is this really a PDF?");
     fitz_open := fun _ => Raise (lit "Failed to open stream");
     decode_utf8_replace := fun _ => [];
     genai_chat_create := fun _ => Raise (lit "timed out");
     loads := json_loads;
     requests_post_json := fun _ _ => Raise (lit "Connection refused");
     py_repr := plain_repr;
     str_lower := ascii_lower |}.

(** The model answers [reply] to every request. *)
Definition replying (reply : str) : services :=
  {| pdfplumber_open := pdfplumber_open offline;
     fitz_open := fitz_open offline;
     decode_utf8_replace := decode_utf8_replace offline;
     genai_chat_create := fun _ => Ok reply;
     loads := json_loads;
     requests_post_json := requests_post_json offline;
     py_repr := plain_repr;
     str_lower := ascii_lower |}.

(** [pdfplumber] behaves as [primary] and PyMuPDF as [fallback]. *)
Definition with_pdf (primary : outcome (list (outcome (option str))))
           (fallback : outcome (list (outcome str))) : services :=
  {| pdfplumber_open := fun _ => primary;
     fitz_open := fun _ => fallback;
     decode_utf8_replace := decode_utf8_replace offline;
     genai_chat_create := genai_chat_create offline;
     loads := json_loads;
     requests_post_json := requests_post_json offline;
     py_repr := plain_repr;
     str_lower := ascii_lower |}.

(** A text upload reads as [text], the model answers [reply] and the
    webhook [answer]. *)
Definition complete (text reply : str) (answer : outcome json) : services :=
  {| pdfplumber_open := pdfplumber_open offline;
     fitz_open := fitz_open offline;
     decode_utf8_replace := fun _ => text;
     genai_chat_create := fun _ => Ok reply;
     loads := json_loads;
     requests_post_json := fun _ _ => answer;
     py_repr := plain_repr;
     str_lower := ascii_lower |}.



(** The first bytes of a PDF file, ["%PDF-1.4"]; the services above
    stand for what the libraries make of the rest. *)
Definition PDF_HEADER : bytes :=
  [Byte.x25; Byte.x50; Byte.x44; Byte.x46; Byte.x2d; Byte.x31; Byte.x2e; Byte.x34].

(** The webhook answers [answer]. *)
Definition with_webhook (answer : outcome json) : services :=
  {| pdfplumber_open := pdfplumber_open offline;
     fitz_open := fitz_open offline;
     decode_utf8_replace := decode_utf8_replace offline;
     genai_chat_create := genai_chat_create offline;
     loads := json_loads;
     requests_post_json := fun _ _ => answer;
     py_repr := plain_repr;
     str_lower := ascii_lower |}.

(** *** Notions for the properties of a whole run *)

(** The model requests among the events of a run. *)
Definition is_genai_call (e : event) : bool :=
  match e with genai_call _ => true | _ => false end.

Definition genai_calls (evs : list event) : list event := filter is_genai_call evs.

Definition is_dict (v : json) : bool :=
  match v with JDict _ => true | _ => false end.

(** The value of [d.get(a) or d.get(b)], by which of the two keys [d]
    has: the value under [a] when it is truthy; otherwise the value
    under [b], or [None] when [b] is absent. *)
Definition first_truthy (a b : str) (d : dict) : json :=
  match dict_get a d, dict_get b d with
  | Some x, Some y => if truthy x then x else y
  | Some x, None => if truthy x then x else JNull
  | None, Some y => y
  | None, None => JNull
  end.

(** Whether [d] has a truthy value under [k]. *)
Definition holds_truthy (k : str) (d : dict) : bool :=
  match dict_get k d with Some x => truthy x | None => false end.

(** A page text that adds a chunk. *)
Definition has_text (t : str) : bool :=
  match t with [] => false | _ :: _ => true end.

(** [pdfplumber] fails with [e] after reading the pages [read]: at
    [open], or at the page that follows them. *)
Definition pdfplumber_fails_after (w : services) (file_bytes : bytes)
           (read : list (option str)) (e : str) : Prop :=
  (pdfplumber_open w file_bytes = Raise e /\ read = [])
  \/ exists rest, pdfplumber_open w file_bytes = Ok (map Ok read ++ Raise e :: rest).

(** PyMuPDF fails with [e]: at [open], or at some page. *)
Definition fitz_fails (w : services) (file_bytes : bytes) (e : str) : Prop :=
  fitz_open w file_bytes = Raise e
  \/ exists texts rest, fitz_open w file_bytes = Ok (map Ok texts ++ Raise e :: rest).

(** What the three expanders show for an answer without any field. *)
Definition PLACEHOLDERS : list event :=
  [st_expander (lit "Final Analytical Answer");
   st_info (jstr "No analytical answer returned by n8n");
   st_expander (lit "Generated Email Body");
   st_code (jstr "No email body returned");
   st_expander (lit "Email Automation Status");
   st_info (jstr "No automation status returned by n8n")].

(** What is shown when the answer cannot be processed. *)
Definition error_shown (m : str) (n8n_resp : json) : list event :=
  [st_error (lit "Error processing n8n response: " ++ m);
   st_subheader (lit "Raw n8n Response");
   st_json n8n_resp].

(** What the extraction of the upload reports. *)
Definition extraction_reports (w : services) (name : str) (file_bytes : bytes)
  : list event :=
  if endswith (lit ".pdf") (str_lower w name)
  then snd (extract_text_from_pdf w file_bytes)
  else [].

(** The text shown in the document preview. *)
Definition preview (raw_text : str) : str :=
  slice_to 2000 raw_text
  ++ if (len raw_text >? 2000)%Z
     then lit "..." ++ [NL; NL] ++ lit "[truncated]"
     else [].

(** The two messages of a run that does not start. *)
Definition MISSING_SECRETS : list event :=
  [st_error (lit "Missing secrets. Add GEMINI_API_KEY and N8N_WEBHOOK_URL to Streamlit Cloud Secrets.");
   st_stop].

Definition AWAITING_INPUT : list event :=
  [st_info (JStr ([8505; 65039; 32]%N
                  ++ lit "Upload an invoice and ask a question to begin."))].

(** The text from which the script goes on, for an upload [name] with
    content [file_bytes]. *)
Definition extracted_text (w : services) (name : str) (file_bytes : bytes) : str :=
  if endswith (lit ".pdf") (str_lower w name)
  then fst (extract_text_from_pdf w file_bytes)
  else extract_text_from_txt w file_bytes.

(* ================================================================== *)
(** ** Facts about the string operations *)

Section StartsWith.

Lemma startswith_app (p s : str) : startswith p (p ++ s) = true.
Proof.
  induction p as [| a p IH]; simpl; [reflexivity |].
  now rewrite N.eqb_refl.
Qed.

Lemma startswith_split (p s : str) :
  startswith p s = true -> exists r, s = p ++ r.
Proof.
  revert s; induction p as [| a p IH]; intros s H.
  - now exists s.
  - destruct s as [| b s]; simpl in H; [discriminate |].
    apply andb_true_iff in H as [Hab Hps].
    apply N.eqb_eq in Hab; subst b.
    destruct (IH _ Hps) as [r ->].
    now exists r.
Qed.

Lemma startswith_head_neq (a c : codepoint) (p t : str) :
  c <> a -> startswith (a :: p) (c :: t) = false.
Proof.
  intros H; simpl.
  destruct (N.eqb_spec a c); [congruence | reflexivity].
Qed.

(** A match that reaches past [s] into [t] uses a character of [t]. *)
Lemma startswith_overhang (p s t : str) :
  startswith p (s ++ t) = true -> startswith p s = false ->
  exists x, In x t /\ In x p.
Proof.
  revert s; induction p as [| a p IH]; intros s Hst Hs; [discriminate |].
  destruct s as [| b s]; simpl in *.
  - destruct t as [| c t]; [discriminate |].
    apply andb_true_iff in Hst as [Hac _].
    apply N.eqb_eq in Hac; subst c.
    exists a; simpl; auto.
  - apply andb_true_iff in Hst as [Hab Hrest].
    rewrite Hab in Hs; simpl in Hs.
    destruct (IH _ Hrest Hs) as (x & Hx & Hp).
    exists x; auto.
Qed.

Lemma contains_cons (n : str) (c : codepoint) (t : str) :
  contains n (c :: t) = startswith n (c :: t) || contains n t.
Proof. reflexivity. Qed.

Lemma contains_head_absent (a : codepoint) (p s : str) :
  ~ In a s -> contains (a :: p) s = false.
Proof.
  induction s as [| c s IH]; intros H; [reflexivity |].
  rewrite contains_cons, IH by (simpl in H; tauto).
  rewrite startswith_head_neq; [reflexivity |].
  simpl in H; intros ->; tauto.
Qed.

(** An occurrence in the middle is an occurrence in the whole. *)
Lemma contains_app_r (n a s : str) :
  contains n s = true -> contains n (a ++ s) = true.
Proof.
  intros H; induction a as [| c a IH]; [exact H |].
  simpl app; rewrite contains_cons, IH; apply orb_true_r.
Qed.

Lemma startswith_app_l (n s b : str) :
  startswith n s = true -> startswith n (s ++ b) = true.
Proof.
  intros H; destruct (startswith_split _ _ H) as [r ->].
  rewrite <- app_assoc; apply startswith_app.
Qed.

Lemma contains_app_l (n s b : str) :
  contains n s = true -> contains n (s ++ b) = true.
Proof.
  induction s as [| c s IH]; intros H.
  - simpl in H. rewrite orb_false_r in H.
    destruct n; [destruct b; reflexivity | discriminate].
  - rewrite contains_cons in H. simpl app. rewrite contains_cons.
    apply orb_true_iff in H as [H | H].
    + change (c :: s ++ b) with ((c :: s) ++ b).
      now rewrite startswith_app_l.
    + rewrite IH by assumption. apply orb_true_r.
Qed.

End StartsWith.

Section Replace.

Variables (a : codepoint) (p new : str).
Let old : str := a :: p.

Lemma replace_from_skip (m s : str) :
  replace_from old new (length m) (m ++ s) = replace_from old new 0 s.
Proof. induction m as [| c m IH]; [reflexivity | exact IH]. Qed.

Lemma replace_nil : replace old new [] = [].
Proof. reflexivity. Qed.

(** At an occurrence: emit [new], resume after it. *)
Lemma replace_match (s : str) :
  replace old new (old ++ s) = new ++ replace old new s.
Proof.
  unfold replace, old.
  change ((a :: p) ++ s) with (a :: (p ++ s)).
  cbn [replace_from].
  change (a :: p ++ s) with ((a :: p) ++ s).
  rewrite startswith_app.
  replace (length (a :: p) - 1) with (length p) by (simpl; lia).
  now rewrite replace_from_skip.
Qed.

(** Elsewhere: copy one character. *)
Lemma replace_step (c : codepoint) (t : str) :
  startswith old (c :: t) = false ->
  replace old new (c :: t) = c :: replace old new t.
Proof.
  intros H; unfold replace, old in *.
  cbn [replace_from]. now rewrite H.
Qed.

Lemma replace_absent (s : str) :
  contains old s = false -> replace old new s = s.
Proof.
  induction s as [| c s IH]; intros H; [reflexivity |].
  rewrite contains_cons in H.
  apply orb_false_iff in H as [Hsw Hc].
  now rewrite replace_step, IH.
Qed.

(** A stretch without the first character of [old] is copied. *)
Lemma replace_app_clean (b s : str) :
  ~ In a b -> replace old new (b ++ s) = b ++ replace old new s.
Proof.
  induction b as [| c b IH]; intros H; [reflexivity |].
  simpl app. rewrite replace_step.
  - rewrite IH; [reflexivity | simpl in H; tauto].
  - apply startswith_head_neq. simpl in H; intros ->; tauto.
Qed.

(** A tail that shares no character with [old] is copied. *)
Lemma replace_app_foreign (t : str) :
  (forall x, In x t -> ~ In x old) ->
  forall s, replace old new (s ++ t) = replace old new s ++ t.
Proof.
  intros Ht s.
  remember (length s) as n eqn:Hn.
  revert s Hn; induction n as [n IH] using lt_wf_ind; intros s Hn.
  destruct s as [| c s].
  - simpl app.
    apply replace_absent, contains_head_absent.
    intros Hin. apply (Ht a Hin). now left.
  - destruct (startswith old (c :: s)) eqn:Hsw.
    + destruct (startswith_split _ _ Hsw) as [r Hr].
      rewrite Hr, <- app_assoc, !replace_match, <- app_assoc.
      f_equal. apply (IH (length r)); [| reflexivity].
      subst n. rewrite Hr, length_app. unfold old; simpl; lia.
    + assert (Hsw' : startswith old ((c :: s) ++ t) = false).
      { destruct (startswith old ((c :: s) ++ t)) eqn:E; [| reflexivity].
        destruct (startswith_overhang _ _ _ E Hsw) as (x & Hx & Hp).
        now destruct (Ht x Hx). }
      rewrite <- app_comm_cons in *.
      rewrite (replace_step _ _ Hsw), (replace_step _ _ Hsw'), <- app_comm_cons.
      f_equal. apply (IH (length s)); [| reflexivity].
      subst n; simpl; lia.
Qed.

End Replace.

Section Strip.

Lemma lstrip_spaces (lead s : str) :
  spaces lead -> lstrip (lead ++ s) = lstrip s.
Proof.
  induction 1 as [| c lead Hc _ IH]; [reflexivity |].
  simpl. now rewrite Hc.
Qed.

Lemma lstrip_all_spaces (s : str) : spaces s -> lstrip s = [].
Proof.
  intros H. rewrite <- (app_nil_r s). now rewrite lstrip_spaces.
Qed.

Lemma lstrip_keeps_tail (s t : str) :
  lstrip s <> [] -> lstrip (s ++ t) = lstrip s ++ t.
Proof.
  induction s as [| c s IH]; intros H; [now destruct H |].
  simpl in *. destruct (is_space c); [now apply IH | reflexivity].
Qed.

Lemma lstrip_split (s : str) :
  exists lead, s = lead ++ lstrip s /\ spaces lead.
Proof.
  induction s as [| c s (lead & Hs & Hl)].
  - exists []. split; [reflexivity | constructor].
  - simpl. destruct (is_space c) eqn:Hc.
    + exists (c :: lead). split; [simpl; now f_equal | now constructor].
    + exists []. split; [reflexivity | constructor].
Qed.

Lemma spaces_rev (s : str) : spaces s -> spaces (rev s).
Proof. apply Forall_rev. Qed.

Lemma rstrip_spaces (s trail : str) :
  spaces trail -> rstrip (s ++ trail) = rstrip s.
Proof.
  intros H. unfold rstrip.
  now rewrite rev_app_distr, lstrip_spaces by now apply spaces_rev.
Qed.

Lemma rstrip_split (s : str) :
  exists trail, s = rstrip s ++ trail /\ spaces trail.
Proof.
  destruct (lstrip_split (rev s)) as (lead & Hs & Hl).
  exists (rev lead). split.
  - unfold rstrip. rewrite <- rev_app_distr, <- Hs. symmetry; apply rev_involutive.
  - now apply spaces_rev.
Qed.

(** Whitespace around a text does not change what [strip] leaves. *)
Lemma strip_pad (lead s trail : str) :
  spaces lead -> spaces trail -> strip (lead ++ s ++ trail) = strip s.
Proof.
  intros Hl Ht. unfold strip. rewrite lstrip_spaces by assumption.
  destruct (lstrip s) as [| c u] eqn:E.
  - destruct (lstrip_split s) as (l & Hs & Hsp). rewrite E, app_nil_r in Hs. subst l.
    rewrite lstrip_all_spaces; [reflexivity |].
    apply Forall_app; split; assumption.
  - rewrite lstrip_keeps_tail by (rewrite E; discriminate).
    rewrite E. now apply rstrip_spaces.
Qed.

Lemma strip_split (s : str) :
  exists lead trail, s = lead ++ strip s ++ trail /\ spaces lead /\ spaces trail.
Proof.
  destruct (lstrip_split s) as (lead & Hs & Hl).
  destruct (rstrip_split (lstrip s)) as (trail & Hr & Ht).
  exists lead, trail. unfold strip. rewrite <- Hr. auto.
Qed.

End Strip.

Section Fences.

Lemma space_not_in_fence (c : codepoint) :
  is_space c = true -> ~ In c FENCE_JSON.
Proof.
  intros H Hin. vm_compute in Hin.
  repeat (destruct Hin as [<- | Hin]; [vm_compute in H; discriminate |]).
  exact Hin.
Qed.

Lemma space_not_backtick (c : codepoint) : is_space c = true -> c <> BQ.
Proof. intros H ->. vm_compute in H. discriminate. Qed.

Lemma spaces_no_backtick (s : str) : spaces s -> ~ In BQ s.
Proof.
  induction 1 as [| c s Hc _ IH]; [easy |].
  intros [E | E]; [now apply (space_not_backtick _ Hc) | auto].
Qed.

Lemma fence_in_tagged (x : codepoint) : In x FENCE -> In x FENCE_JSON.
Proof. vm_compute. tauto. Qed.

(** Both removals pass over surrounding whitespace. *)
Lemma remove_fence_json_pad (lead s trail : str) :
  spaces lead -> spaces trail ->
  replace FENCE_JSON [] (lead ++ s ++ trail)
  = lead ++ replace FENCE_JSON [] s ++ trail.
Proof.
  intros Hl Ht.
  change FENCE_JSON with (BQ :: lit "``json").
  rewrite replace_app_clean by now apply spaces_no_backtick.
  rewrite replace_app_foreign; [reflexivity |].
  intros x Hx. apply space_not_in_fence.
  now apply (proj1 (Forall_forall _ _) Ht).
Qed.

Lemma remove_fence_pad (lead s trail : str) :
  spaces lead -> spaces trail ->
  replace FENCE [] (lead ++ s ++ trail) = lead ++ replace FENCE [] s ++ trail.
Proof.
  intros Hl Ht.
  change FENCE with (BQ :: lit "``").
  rewrite replace_app_clean by now apply spaces_no_backtick.
  rewrite replace_app_foreign; [reflexivity |].
  intros x Hx Hin. apply (space_not_in_fence x).
  - now apply (proj1 (Forall_forall _ _) Ht).
  - now apply fence_in_tagged.
Qed.

(** The first [strip] of [cleaned] can be dropped. *)
Lemma cleaned_pad (lead s trail : str) :
  spaces lead -> spaces trail ->
  spec_cleaned (lead ++ s ++ trail) = strip (replace FENCE [] (replace FENCE_JSON [] s)).
Proof.
  intros Hl Ht. unfold spec_cleaned.
  now rewrite remove_fence_json_pad, remove_fence_pad, strip_pad.
Qed.

Lemma cleaned_is_spec_cleaned (r : str) : cleaned r = spec_cleaned r.
Proof.
  destruct (strip_split r) as (lead & trail & Hr & Hl & Ht).
  rewrite Hr at 2. now rewrite cleaned_pad.
Qed.

End Fences.

Section FenceGone.

Let F : str := [BQ; BQ; BQ].

Lemma fence_is_three_backticks : FENCE = F.
Proof. reflexivity. Qed.

Lemma remove_fence_step (c : codepoint) (t : str) :
  startswith F (c :: t) = false ->
  replace F [] (c :: t) = c :: replace F [] t.
Proof. apply replace_step. Qed.

Lemma startswith_cons (a c : codepoint) (p t : str) :
  startswith (a :: p) (c :: t) = (a =? c)%N && startswith p t.
Proof. reflexivity. Qed.

(** Decides [startswith F] on a text whose first characters are known
    to be, or not to be, backticks. *)
Ltac fence_head :=
  unfold F in *; repeat rewrite startswith_cons in *;
  repeat rewrite N.eqb_refl in *;
  repeat match goal with
         | H : ?a <> ?b |- _ => rewrite (proj2 (N.eqb_neq a b) H) in *
         end;
  cbn [andb startswith] in *;
  try reflexivity; try discriminate.

(** A backtick that opens no fence is not followed, after the removal,
    by two more backticks. *)
Lemma no_fence_rebuilt (c : codepoint) (t : str) :
  startswith F (c :: t) = false ->
  startswith F (c :: replace F [] t) = false.
Proof.
  intros H.
  destruct (N.eqb_spec BQ c) as [<- | Hc]; [| fence_head].
  destruct t as [| d t]; [reflexivity |].
  destruct (N.eqb_spec BQ d) as [<- | Hd].
  - destruct t as [| e t]; [reflexivity |].
    destruct (N.eqb_spec BQ e) as [<- | He]; [discriminate H |].
    assert (H1 : startswith F (BQ :: e :: t) = false) by fence_head.
    assert (H2 : startswith F (e :: t) = false) by fence_head.
    rewrite (remove_fence_step _ _ H1), (remove_fence_step _ _ H2).
    fence_head.
  - assert (H1 : startswith F (d :: t) = false) by fence_head.
    rewrite (remove_fence_step _ _ H1).
    fence_head.
Qed.

(** After the second removal no fence is left anywhere. *)
Lemma fence_gone (s : str) : contains FENCE (replace FENCE [] s) = false.
Proof.
  rewrite fence_is_three_backticks.
  remember (length s) as n eqn:Hn.
  revert s Hn; induction n as [n IH] using lt_wf_ind; intros s Hn.
  destruct s as [| c s]; [reflexivity |].
  destruct (startswith F (c :: s)) eqn:Hsw.
  - destruct (startswith_split _ _ Hsw) as [r Hr].
    rewrite Hr. unfold F at 2 3. rewrite (replace_match BQ [BQ; BQ] [] r).
    simpl app. apply (IH (length r)); [| reflexivity].
    subst n. rewrite Hr, length_app. simpl; lia.
  - rewrite (remove_fence_step _ _ Hsw), contains_cons.
    rewrite (no_fence_rebuilt _ _ Hsw). simpl orb.
    apply (IH (length s)); [| reflexivity].
    subst n; simpl; lia.
Qed.

Lemma contains_strip (n s : str) :
  contains n s = false -> contains n (strip s) = false.
Proof.
  intros H. destruct (contains n (strip s)) eqn:E; [| reflexivity].
  destruct (strip_split s) as (lead & trail & Hs & _ & _).
  rewrite Hs in H.
  now rewrite (contains_app_r n lead _ (contains_app_l n _ trail E)) in H.
Qed.

Lemma cleaned_has_no_fence (r : str) : contains FENCE (cleaned r) = false.
Proof. apply contains_strip, fence_gone. Qed.

End FenceGone.

Lemma startswith_shorter (p q s : str) :
  startswith (p ++ q) s = true -> startswith p s = true.
Proof.
  revert s; induction p as [| a p IH]; intros s H; [reflexivity |].
  destruct s as [| b s]; [discriminate |].
  rewrite <- app_comm_cons, startswith_cons in H. rewrite startswith_cons.
  apply andb_true_iff in H as [-> H]. now apply IH.
Qed.

Lemma contains_shorter (p q s : str) :
  contains p s = false -> contains (p ++ q) s = false.
Proof.
  induction s as [| c s IH]; intros H.
  - destruct p; [discriminate | reflexivity].
  - rewrite contains_cons in *. apply orb_false_iff in H as [Hs Hc].
    rewrite (IH Hc), orb_false_r.
    destruct (startswith (p ++ q) (c :: s)) eqn:E; [| reflexivity].
    now rewrite (startswith_shorter _ _ _ E) in Hs.
Qed.

(* ================================================================== *)
(** ** The extraction result (C1) *)

Lemma error_record_shape (m : str) :
  let r := JDict [(lit "error", JStr m)] in
  is_error_shape r = true /\ is_raw_output_shape r = false
  /\ conforms_schema r = false.
Proof. repeat split. Qed.

Lemma raw_output_record_shape (c m : str) :
  let r := JDict [(lit "raw_output", JStr c); (lit "parse_error", JStr m)] in
  is_error_shape r = false /\ is_raw_output_shape r = true
  /\ conforms_schema r = false.
Proof. repeat split. Qed.

(** C1, as stated, fails: a reply that is valid JSON but no extraction
    object is returned as it is.  The model answers
    [{"risk_level": "Unknown"}]; [call_gemini] returns that dict, which
    is none of the three shapes. *)
Lemma call_gemini_outside_the_shapes :
  let w := replying (jlit "{'risk_level': 'Unknown'}") in
  let r := fst (call_gemini w (lit "Total: $1,200") (lit "What is the total amount?")) in
  r = JDict [(lit "risk_level", jstr "Unknown")]
  /\ is_error_shape r = false
  /\ is_raw_output_shape r = false
  /\ conforms_schema r = false
  /\ has_result_shape r = false.
Proof. vm_compute. repeat split. Qed.

(** C1, amended: [call_gemini] is total, issues exactly one request to
    the model, and its result is decided by that one answer: the error
    record when the request raises; the raw-output record when the
    cleaned reply does not decode; otherwise the decoded value itself,
    unvalidated.  The two records have exactly the keys of their shape
    and are neither each other nor a schema-conforming object. *)
Theorem call_gemini_result_cases (w : services) (document_text user_question : str) :
  let content := request_content document_text user_question in
  let r := fst (call_gemini w document_text user_question) in
  snd (call_gemini w document_text user_question) = [genai_call content]
  /\ (forall e, genai_chat_create w content = Raise e ->
        r = JDict [(lit "error", JStr (lit "Gemini API call failed: " ++ e))]
        /\ is_error_shape r = true /\ is_raw_output_shape r = false
        /\ conforms_schema r = false)
  /\ (forall raw_text e,
        genai_chat_create w content = Ok raw_text ->
        loads w (cleaned raw_text) = Raise e ->
        r = JDict [(lit "raw_output", JStr (cleaned raw_text));
                   (lit "parse_error", JStr e)]
        /\ is_error_shape r = false /\ is_raw_output_shape r = true
        /\ conforms_schema r = false)
  /\ (forall raw_text v,
        genai_chat_create w content = Ok raw_text ->
        loads w (cleaned raw_text) = Ok v ->
        r = v).
Proof.
  intros content r. subst r content.
  unfold call_gemini; cbn [fst snd].
  split; [reflexivity |].
  split; [| split].
  - intros e ->. split; [reflexivity |]. apply error_record_shape.
  - intros raw_text e -> ->. split; [reflexivity |]. apply raw_output_record_shape.
  - intros raw_text v -> ->. reflexivity.
Qed.

(** The model call times out: the result is the error record, whose
    message contains "failed", and nothing else. *)
Lemma call_gemini_result_cases_witness :
  fst (call_gemini offline (lit "Total: $1,200") (lit "What is the total amount?"))
  = JDict [(lit "error", jstr "Gemini API call failed: timed out")]
  /\ contains (lit "failed") (lit "Gemini API call failed: timed out") = true.
Proof.
  split; [| reflexivity].
  apply (proj1 (proj2 (call_gemini_result_cases offline (lit "Total: $1,200")
                         (lit "What is the total amount?")))
           (lit "timed out")).
  reflexivity.
Defined.

(* ================================================================== *)
(** ** PDF text (C2) *)

Lemma pdfplumber_pages_all (texts : list (option str)) (chunks : list str) :
  pdfplumber_pages (map Ok texts) chunks
  = (chunks ++ filter (fun t => match t with [] => false | _ => true end)
                      (map page_text texts), None).
Proof.
  revert chunks; induction texts as [| t texts IH]; intros chunks; simpl.
  - now rewrite app_nil_r.
  - destruct t as [[| c s] |]; simpl; rewrite IH; [reflexivity | | reflexivity].
    rewrite <- app_assoc. reflexivity.
Qed.

(** When [pdfplumber] reads every page, the text is the specified
    concatenation and nothing is reported. *)
Lemma extract_text_from_pdf_primary (w : services) (file_bytes : bytes)
      (texts : list (option str)) :
  pdfplumber_open w file_bytes = Ok (map Ok texts) ->
  extract_text_from_pdf w file_bytes
  = (spec_page_concat (map page_text texts), []).
Proof.
  intros H. unfold extract_text_from_pdf. rewrite H, pdfplumber_pages_all.
  reflexivity.
Qed.

(** C2, the fallback path: [pdfplumber.open] raises on a three-page PDF
    whose second page has no text, and PyMuPDF reads it.  The fallback
    loop appends the empty page text too, so the result has two blank
    lines where the specified concatenation has one. *)
Theorem extract_text_from_pdf_fallback_keeps_empty_pages :
  let pages := [lit "Invoice 17"; []; lit "Total: $1,200"] in
  let w := with_pdf (Raise (lit "No /Root object! - Is this really a PDF?"))
                    (Ok (map Ok pages)) in
  fst (extract_text_from_pdf w PDF_HEADER)
  = lit "Invoice 17" ++ [NL; NL; NL; NL] ++ lit "Total: $1,200"
  /\ spec_page_concat pages = lit "Invoice 17" ++ [NL; NL] ++ lit "Total: $1,200"
  /\ fst (extract_text_from_pdf w PDF_HEADER) <> spec_page_concat pages.
Proof. vm_compute. repeat split. discriminate. Qed.

(** The same loop also keeps the chunks gathered before [pdfplumber]
    raised: a failure on the second page repeats the first. *)
Lemma extract_text_from_pdf_fallback_repeats_pages :
  let w := with_pdf (Ok [Ok (Some (lit "A")); Raise (lit "bad page")])
                    (Ok [Ok (lit "A"); Ok (lit "B")]) in
  fst (extract_text_from_pdf w PDF_HEADER)
  = lit "A" ++ [NL; NL] ++ lit "A" ++ [NL; NL] ++ lit "B".
Proof. reflexivity. Qed.

(* ================================================================== *)
(** ** The prompt (C3) *)

Lemma len_slice_to (n : Z) (s : str) :
  (0 <= n)%Z -> len (slice_to n s) = Z.min n (len s).
Proof.
  intros Hn. unfold len, slice_to. rewrite length_firstn. lia.
Qed.

(** C3: the prompt is the fixed text before the document, the first
    30,000 characters of the document, and a text fixed by the question
    and the schema.  A longer document is cut to exactly its first 30,000
    characters; a shorter one is embedded whole; nothing is added. *)
Theorem user_prompt_truncates_document (document_text user_question : str) :
  user_prompt document_text user_question
  = prompt_before ++ slice_to 30000 document_text ++ prompt_after user_question
  /\ (forall d q, d = document_text -> q = user_question ->
        user_prompt d q = user_prompt document_text user_question)
  /\ (30000 < len document_text ->
        len (slice_to 30000 document_text) = 30000
        /\ exists rest, rest <> []
             /\ document_text = slice_to 30000 document_text ++ rest)%Z
  /\ (len document_text <= 30000 ->
        slice_to 30000 document_text = document_text)%Z
  /\ (len (user_prompt document_text user_question)
      <= len prompt_before + len document_text + len (prompt_after user_question))%Z.
Proof.
  assert (Hsplit : user_prompt document_text user_question
                   = prompt_before ++ slice_to 30000 document_text
                     ++ prompt_after user_question).
  { unfold user_prompt, prompt_before, prompt_after.
    apply app_assoc. }
  split; [exact Hsplit |].
  split; [now intros d q -> -> |].
  split; [| split].
  - intros Hlong. split; [rewrite len_slice_to; lia |].
    exists (skipn (Z.to_nat 30000) document_text). split.
    + intros E. apply (f_equal (@length _)) in E.
      rewrite length_skipn in E. unfold len in Hlong. simpl length in E. lia.
    + unfold slice_to. symmetry. apply firstn_skipn.
  - intros Hshort. unfold slice_to, len in *. apply firstn_all2. lia.
  - rewrite Hsplit. unfold len. rewrite !length_app.
    pose proof (len_slice_to 30000 document_text ltac:(lia)) as Hl.
    unfold len in Hl. lia.
Qed.

(** A document of 30,001 characters enters the prompt with 30,000. *)
Lemma user_prompt_truncates_document_witness :
  len (slice_to 30000 (repeat 48%N (Z.to_nat 30001))) = 30000%Z.
Proof.
  apply (proj1 (proj2 (proj2 (user_prompt_truncates_document
                                (repeat 48%N (Z.to_nat 30001)) (lit "What?"))))).
  unfold len. rewrite repeat_length. lia.
Defined.

(* ================================================================== *)
(** ** Code fences around the reply (C4) *)

Section FencedBlock.

Let F : str := [BQ; BQ; BQ].

(** A match that reaches past [s] into [t]: [s] is a proper prefix of
    the pattern and the rest of the pattern begins [t]. *)
Lemma startswith_overhang_split (p s t : str) :
  startswith p (s ++ t) = true -> startswith p s = false ->
  exists p2, p = s ++ p2 /\ p2 <> [] /\ startswith p2 t = true.
Proof.
  revert s; induction p as [| a p IH]; intros s Hst Hs; [discriminate |].
  destruct s as [| b s].
  - exists (a :: p). repeat split; [discriminate | exact Hst].
  - rewrite <- app_comm_cons, startswith_cons in Hst.
    rewrite startswith_cons in Hs.
    apply andb_true_iff in Hst as [Hab Hrest].
    rewrite Hab in Hs. cbn [andb] in Hs.
    apply N.eqb_eq in Hab; subst b.
    destruct (IH _ Hrest Hs) as (p2 & -> & Hne & Hp2).
    exists p2. repeat split; assumption.
Qed.

(** No end of the tagged fence begins the fence. *)
Lemma tagged_fence_tail (s p2 : str) :
  FENCE_JSON = s ++ p2 -> p2 <> [] -> startswith p2 FENCE = true -> False.
Proof.
  intros H Hne Hsw. vm_compute in H.
  repeat (destruct s as [| ? s];
          [cbn [app] in H; subst p2; vm_compute in Hsw; discriminate
          | cbn [app] in H; injection H as ? H; subst]).
  destruct s; [| discriminate]. cbn [app] in H. now subst.
Qed.

(** The closing fence completes no tagged fence. *)
Lemma tagged_fence_not_completed (s : str) :
  contains FENCE_JSON s = false -> contains FENCE_JSON (s ++ FENCE) = false.
Proof.
  induction s as [| c s IH]; intros H; [reflexivity |].
  rewrite contains_cons in H. apply orb_false_iff in H as [Hsw Hc].
  rewrite <- app_comm_cons, contains_cons, (IH Hc), orb_false_r.
  destruct (startswith FENCE_JSON (c :: s ++ FENCE)) eqn:E; [| reflexivity].
  rewrite app_comm_cons in E.
  destruct (startswith_overhang_split _ _ _ E Hsw) as (p2 & Hp & Hne & Hp2).
  destruct (tagged_fence_tail _ _ Hp Hne Hp2).
Qed.

Ltac backticks :=
  unfold F in *; repeat rewrite startswith_cons in *;
  repeat rewrite N.eqb_refl in *;
  repeat match goal with
         | H : ?a <> ?b |- _ => rewrite (proj2 (N.eqb_neq a b) H) in *
         end;
  cbn [andb startswith] in *;
  try reflexivity; try discriminate.

(** Before the closing fence, a content without a fence is left as it
    is, backticks at its end included. *)
Lemma closing_fence_removed (inner : str) :
  contains F inner = false -> replace F [] (inner ++ F) = inner.
Proof.
  unfold F. remember (length inner) as n eqn:Hn.
  revert inner Hn; induction n as [n IH] using lt_wf_ind; intros inner Hn H.
  assert (Hrec : forall t, length t < n -> contains [BQ; BQ; BQ] t = false ->
                           replace [BQ; BQ; BQ] [] (t ++ [BQ; BQ; BQ]) = t)
    by (intros t Ht; exact (IH (length t) Ht t eq_refl)).
  clear IH. subst n.
  destruct inner as [| c t]; [reflexivity |].
  rewrite contains_cons in H. apply orb_false_iff in H as [Hsw Hc].
  destruct (N.eqb_spec BQ c) as [<- | Hne].
  2:{ rewrite <- app_comm_cons.
      assert (X : startswith [BQ; BQ; BQ] (c :: t ++ [BQ; BQ; BQ]) = false)
        by backticks.
      rewrite (replace_step _ _ _ _ _ X).
      rewrite Hrec by (assumption || (simpl; lia)). reflexivity. }
  destruct t as [| d t]; [reflexivity |].
  rewrite contains_cons in Hc. apply orb_false_iff in Hc as [Hsw' Hc'].
  destruct (N.eqb_spec BQ d) as [<- | Hd].
  2:{ rewrite <- app_comm_cons.
      assert (X : startswith [BQ; BQ; BQ] (BQ :: (d :: t) ++ [BQ; BQ; BQ]) = false)
        by (rewrite <- app_comm_cons; backticks).
      rewrite (replace_step _ _ _ _ _ X).
      rewrite Hrec; [reflexivity | simpl; lia |].
      rewrite contains_cons, Hsw', Hc'. reflexivity. }
  destruct t as [| e t]; [reflexivity |].
  destruct (N.eqb_spec BQ e) as [<- | He]; [discriminate Hsw |].
  rewrite <- app_comm_cons.
  assert (X : startswith [BQ; BQ; BQ] (BQ :: (BQ :: e :: t) ++ [BQ; BQ; BQ]) = false)
    by (rewrite <- !app_comm_cons; backticks).
  rewrite (replace_step _ _ _ _ _ X).
  rewrite Hrec; [reflexivity | simpl; lia |].
  rewrite contains_cons, Hsw', Hc'. reflexivity.
Qed.

(** What is left of a fenced block whose content holds no fence. *)
Lemma cleaned_fenced_block (lead opening inner trail : str) :
  spaces lead -> spaces trail -> contains FENCE inner = false ->
  opening = FENCE_JSON
  \/ (opening = FENCE /\ contains FENCE_JSON (FENCE ++ inner) = false) ->
  cleaned (lead ++ opening ++ inner ++ FENCE ++ trail) = strip inner.
Proof.
  intros Hl Ht Hin Hopen.
  rewrite cleaned_is_spec_cleaned.
  replace (lead ++ opening ++ inner ++ FENCE ++ trail)
    with (lead ++ (opening ++ inner ++ FENCE) ++ trail)
    by now rewrite <- !app_assoc.
  rewrite cleaned_pad by assumption.
  assert (H2 : replace FENCE [] (inner ++ FENCE) = inner)
    by exact (closing_fence_removed inner Hin).
  assert (H3 : replace FENCE [] (FENCE ++ inner ++ FENCE)
               = replace FENCE [] (inner ++ FENCE))
    by exact (replace_match BQ (lit "``") [] (inner ++ FENCE)).
  destruct Hopen as [-> | [-> Htag]].
  - assert (H0 : replace FENCE_JSON [] (FENCE_JSON ++ inner ++ FENCE)
                 = replace FENCE_JSON [] (inner ++ FENCE))
      by exact (replace_match BQ (lit "``json") [] (inner ++ FENCE)).
    assert (H1 : replace FENCE_JSON [] (inner ++ FENCE) = inner ++ FENCE).
    { apply (replace_absent BQ (lit "``json") [] (inner ++ FENCE)).
      apply tagged_fence_not_completed.
      exact (contains_shorter FENCE (lit "json") _ Hin). }
    now rewrite H0, H1, H2.
  - assert (H1 : replace FENCE_JSON [] (FENCE ++ inner ++ FENCE)
                 = FENCE ++ inner ++ FENCE).
    { apply (replace_absent BQ (lit "``json") [] (FENCE ++ inner ++ FENCE)).
      rewrite app_assoc. now apply tagged_fence_not_completed. }
    now rewrite H1, H3, H2.
Qed.

(** A fence does not lie in the whitespace around a text. *)
Lemma contains_fence_strip (s : str) :
  contains FENCE s = true -> contains FENCE (strip s) = true.
Proof.
  destruct (strip_split s) as (lead & trail & Hs & Hl & Ht).
  intros H. rewrite Hs in H.
  destruct (contains FENCE (strip s)) eqn:E; [reflexivity |].
  assert (Hmid : contains FENCE (strip s ++ trail) = false).
  { clear H Hs. induction (strip s) as [| c u IH].
    - apply (contains_head_absent BQ (lit "``")). now apply spaces_no_backtick.
    - rewrite contains_cons in E. apply orb_false_iff in E as [Hsw Hc].
      rewrite <- app_comm_cons, contains_cons, (IH Hc), orb_false_r.
      destruct (startswith FENCE (c :: u ++ trail)) eqn:E'; [| reflexivity].
      rewrite app_comm_cons in E'.
      destruct (startswith_overhang _ _ _ E' Hsw) as (x & Hx & Hp).
      destruct (space_not_in_fence x
                  (proj1 (Forall_forall _ _) Ht x Hx) (fence_in_tagged x Hp)). }
  clear Hs. induction Hl as [| c lead Hc _ IH];
    [cbn [app] in H; now rewrite Hmid in H |].
  apply IH. rewrite <- app_comm_cons, contains_cons in H.
  rewrite (startswith_head_neq BQ c (lit "``")) in H
    by (now apply space_not_backtick).
  exact H.
Qed.

End FencedBlock.

(** C4, as stated, fails for JSON that itself holds a fence: the model
    answers the fenced object [{"summary": "see ``` block"}]; the inner
    text decodes to that object, but [call_gemini] returns the object
    with the summary ["see  block"]. *)
Lemma call_gemini_alters_fenced_json :
  let inner := jlit "{'summary': 'see ``` block'}" in
  let w := replying (FENCE_JSON ++ [NL] ++ inner ++ [NL] ++ FENCE) in
  json_loads inner = Ok (JDict [(lit "summary", jstr "see ``` block")])
  /\ fst (call_gemini w (lit "Total: $1,200") (lit "What is the total amount?"))
     = JDict [(lit "summary", jstr "see  block")].
Proof. vm_compute. split; reflexivity. Qed.

(** C4, amended: a reply that is a fenced block, tagged [json] or not,
    with whitespace around it and no fence inside its content, is
    decoded from the content alone, single and double backticks in the
    content included; the reply of scenario 4 yields the object with an
    empty [extracted_pairs]; and a content that holds a fence is never
    what the decoder is given. *)
Theorem call_gemini_strips_wrapping_fences :
  (forall (w : services) (document_text user_question : str)
          (lead opening inner trail : str) (v : json),
      spaces lead -> spaces trail -> contains FENCE inner = false ->
      opening = FENCE_JSON
      \/ (opening = FENCE /\ contains FENCE_JSON (FENCE ++ inner) = false) ->
      genai_chat_create w (request_content document_text user_question)
      = Ok (lead ++ opening ++ inner ++ FENCE ++ trail) ->
      loads w (strip inner) = Ok v ->
      fst (call_gemini w document_text user_question) = v)
  /\ (forall document_text user_question : str,
        fst (call_gemini (replying (jlit "```json {'extracted_pairs':[]} ```"))
               document_text user_question)
        = JDict [(lit "extracted_pairs", JList [])])
  /\ (forall r inner : str,
        contains FENCE inner = true -> cleaned r <> strip inner).
Proof.
  split; [| split].
  - intros w d q lead opening inner trail v Hl Ht Hin Hopen Hreply Hv.
    unfold call_gemini; cbn [fst].
    rewrite Hreply, cleaned_fenced_block by assumption.
    now rewrite Hv.
  - intros d q. unfold call_gemini; cbn [fst replying genai_chat_create loads].
    vm_compute. reflexivity.
  - intros r inner Hin E.
    pose proof (cleaned_has_no_fence r) as H.
    rewrite E, (contains_fence_strip inner Hin) in H. discriminate.
Qed.

(** A tagged block whose content has single and double backticks is
    returned as its content decodes. *)
Lemma call_gemini_strips_wrapping_fences_witness :
  fst (call_gemini
         (replying (jlit "```json {'summary': 'use `x` and ``y`` here'} ```"))
         (lit "Total: $1,200") (lit "What is the total amount?"))
  = JDict [(lit "summary", jstr "use `x` and ``y`` here")].
Proof.
  apply (proj1 call_gemini_strips_wrapping_fences
           (replying (jlit "```json {'summary': 'use `x` and ``y`` here'} ```"))
           (lit "Total: $1,200") (lit "What is the total amount?")
           [] FENCE_JSON (jlit " {'summary': 'use `x` and ``y`` here'} ") []).
  - constructor.
  - constructor.
  - vm_compute. reflexivity.
  - left; reflexivity.
  - reflexivity.
  - vm_compute. reflexivity.
Defined.

(* ================================================================== *)
(** ** The webhook's answer (C5, C6) *)

(** C5: a flat object, a dict without a [json] key, is its own
    normalisation. *)
Theorem n8n_data_flat_object_fixed (d : dict) :
  dict_get (lit "json") d = None ->
  n8n_data (JDict d) = Ok (JDict d).
Proof. intros H. unfold n8n_data, get_default. now rewrite H. Qed.

Lemma n8n_data_flat_object_fixed_witness :
  n8n_data (JDict [(lit "final_answer", jstr "Total is 1,200");
                   (lit "automation_status", jstr "sent")])
  = Ok (JDict [(lit "final_answer", jstr "Total is 1,200");
               (lit "automation_status", jstr "sent")]).
Proof. apply n8n_data_flat_object_fixed. reflexivity. Defined.

(** The answer of an n8n node, a list of items each wrapped under
    [json], normalises to a flat object, which then stays as it is. *)
Lemma n8n_data_unwraps_then_fixed (d : dict) (others : list json) :
  dict_get (lit "json") d = None ->
  n8n_data (JList (JDict [(lit "json", JDict d)] :: others)) = Ok (JDict d)
  /\ n8n_data (JDict d) = Ok (JDict d).
Proof.
  intros H. split; [reflexivity |].
  unfold n8n_data, get_default. now rewrite H.
Qed.

(** An object that is not flat is unwrapped once more by a second
    normalisation. *)
Lemma n8n_data_unwraps_one_level :
  let inner := JDict [(lit "json", JDict [(lit "status", jstr "ok")])] in
  n8n_data (JDict [(lit "json", inner)]) = Ok inner
  /\ n8n_data inner = Ok (JDict [(lit "status", jstr "ok")]).
Proof. split; reflexivity. Qed.

Lemma get_or_both (d : dict) (a b : str) (x y : json) :
  dict_get a d = Some x -> dict_get b d = Some y ->
  get_or (JDict d) a b = Ok (if truthy x then x else y).
Proof.
  intros Ha Hb. unfold get_or, get, get_default, bind. rewrite Ha, Hb.
  now destruct (truthy x).
Qed.

(** C6, as stated, fails when the snake_case value is empty: with
    [final_answer] the empty string and [finalAnswer] a text, both
    present, the text under [finalAnswer] is used. *)
Lemma final_answer_falls_back_on_empty :
  let d := [(lit "final_answer", jstr ""); (lit "finalAnswer", jstr "Approved")] in
  dict_get (lit "final_answer") d = Some (jstr "")
  /\ dict_get (lit "finalAnswer") d = Some (jstr "Approved")
  /\ final_answer (JDict d) = Ok (jstr "Approved").
Proof. repeat split. Qed.

Lemma get_or_first_truthy (d : dict) (a b : str) :
  get_or (JDict d) a b = Ok (first_truthy a b d).
Proof.
  unfold get_or, get, get_default, bind, first_truthy.
  destruct (dict_get a d) as [x |], (dict_get b d) as [y |];
    try reflexivity; now destruct (truthy x).
Qed.

(** C6, amended: each field is read as [data.get(first) or
    data.get(second)], whichever of the two keys are present: the value
    under the first key when it is truthy, otherwise the value under the
    second key, or [None] when the second key is absent.  The keys are
    [final_answer] then [finalAnswer], [email_body] then [emailBody],
    [automation_status] then [status].  So with both keys present the
    first key's value is used when it is truthy and the second key's
    otherwise. *)
Theorem fields_prefer_truthy_first_key (d : dict) (x y : json) :
  (final_answer (JDict d)
   = Ok (first_truthy (lit "final_answer") (lit "finalAnswer") d)
   /\ email_body (JDict d)
      = Ok (first_truthy (lit "email_body") (lit "emailBody") d)
   /\ status (JDict d)
      = Ok (first_truthy (lit "automation_status") (lit "status") d))
  /\ (dict_get (lit "final_answer") d = Some x ->
      dict_get (lit "finalAnswer") d = Some y ->
      final_answer (JDict d) = Ok (if truthy x then x else y))
  /\ (dict_get (lit "email_body") d = Some x ->
      dict_get (lit "emailBody") d = Some y ->
      email_body (JDict d) = Ok (if truthy x then x else y))
  /\ (dict_get (lit "automation_status") d = Some x ->
      dict_get (lit "status") d = Some y ->
      status (JDict d) = Ok (if truthy x then x else y)).
Proof.
  split; [repeat split; apply get_or_first_truthy |].
  repeat split; apply get_or_both.
Qed.

Lemma fields_prefer_truthy_first_key_witness :
  final_answer (JDict [(lit "final_answer", jstr "Paid");
                       (lit "finalAnswer", jstr "Approved")])
  = Ok (jstr "Paid").
Proof.
  apply (proj1 (proj2 (fields_prefer_truthy_first_key
                         [(lit "final_answer", jstr "Paid");
                          (lit "finalAnswer", jstr "Approved")]
                         (jstr "Paid") (jstr "Approved"))));
    reflexivity.
Defined.

(** With the second key alone its value is used; a falsy value under
    the first key alone reads as [None]. *)
Lemma fields_with_one_key :
  final_answer (JDict [(lit "finalAnswer", jstr "Approved")]) = Ok (jstr "Approved")
  /\ final_answer (JDict [(lit "final_answer", jstr "")]) = Ok JNull
  /\ status (JDict [(lit "status", jstr "sent")]) = Ok (jstr "sent").
Proof. repeat split. Qed.

(* ================================================================== *)
(** ** The webhook call (C7, C8) *)

Lemma process_n8n_response_posts_nothing (w : services) (n8n_resp : json) :
  http_calls (process_n8n_response w n8n_resp) = [].
Proof.
  unfold process_n8n_response.
  match goal with
  | |- context [match ?r with Ok _ => _ | Raise _ => _ end] =>
      destruct r as [[[fa eb] st] | m]
  end; [| reflexivity].
  repeat match goal with
         | |- context [if truthy ?v then _ else _] => destruct (truthy v)
         | |- context [if existsb ?f ?l then _ else _] => destruct (existsb f l)
         end; reflexivity.
Qed.

(** C7: the payload holds the extraction result itself under
    [extracted_json]; and with a recipient that is not empty, that
    payload is what the one webhook call of the branch posts. *)
Theorem payload_carries_extraction (raw_text : str) (extraction : json)
        (user_question recipient file_name : str) :
  get (payload raw_text extraction user_question recipient file_name)
      (lit "extracted_json") = Ok extraction
  /\ (forall (w : services) (N8N_WEBHOOK : str) (c : codepoint) (address : str),
        exists shown,
          send_alert w N8N_WEBHOOK true (c :: address) raw_text extraction
            user_question file_name
          = st_spinner (lit "Calling n8n webhook...")
            :: http_post N8N_WEBHOOK
                 (payload raw_text extraction user_question (c :: address) file_name)
                 60
            :: shown
          /\ http_calls shown = []).
Proof.
  split; [reflexivity |].
  intros w hook c address. unfold send_alert.
  destruct (requests_post_json w hook _) as [v | e]; eexists;
    (split; [reflexivity |]);
    cbn [app http_calls filter is_http_post];
    apply process_n8n_response_posts_nothing.
Qed.

Lemma extract_text_from_pdf_posts_nothing (w : services) (file_bytes : bytes) :
  http_calls (snd (extract_text_from_pdf w file_bytes)) = [].
Proof.
  unfold extract_text_from_pdf.
  destruct (match pdfplumber_open w file_bytes with
            | Ok pages => pdfplumber_pages pages []
            | Raise e => ([], Some e)
            end) as [chunks [e |]]; [| reflexivity].
  destruct (match fitz_open w file_bytes with
            | Ok pages => fitz_pages pages chunks
            | Raise e2 => (chunks, Some e2)
            end) as [chunks' [e2 |]]; reflexivity.
Qed.

Lemma http_calls_app (a b : list event) :
  http_calls (a ++ b) = http_calls a ++ http_calls b.
Proof. apply filter_app. Qed.

Lemma send_alert_without_recipient (w : services) (N8N_WEBHOOK : str)
      (send_button : bool) (raw_text : str) (extraction : json)
      (user_question file_name : str) :
  http_calls (send_alert w N8N_WEBHOOK send_button [] raw_text extraction
                user_question file_name) = [].
Proof. now destruct send_button. Qed.

(** C8: pressing the button with an empty recipient shows the warning
    and nothing else; a whole run of the script with an empty recipient
    posts nothing; and a post is issued only when the button was pressed
    with a recipient that is not empty. *)
Theorem no_webhook_call_without_recipient :
  (forall (w : services) (N8N_WEBHOOK raw_text : str) (extraction : json)
          (user_question file_name : str),
      send_alert w N8N_WEBHOOK true [] raw_text extraction user_question file_name
      = [st_warning (lit "Please provide a recipient email before sending.")])
  /\ (forall (w : services) (GEMINI_API_KEY N8N_WEBHOOK_URL : option str)
             (uploaded_file : option (str * bytes)) (user_question : str)
             (send_button : bool),
         http_calls (script w GEMINI_API_KEY N8N_WEBHOOK_URL uploaded_file
                       user_question [] send_button) = [])
  /\ (forall (w : services) (N8N_WEBHOOK : str) (send_button : bool)
             (recipient raw_text : str) (extraction : json)
             (user_question file_name : str),
         http_calls (send_alert w N8N_WEBHOOK send_button recipient raw_text
                       extraction user_question file_name) <> [] ->
         send_button = true /\ recipient <> []).
Proof.
  split; [reflexivity |]. split.
  - intros w k1 k2 file q sb. unfold script.
    destruct k1 as [k1 |], k2 as [hook |]; try reflexivity.
    destruct file as [[name file_bytes] |], q as [| c q]; try reflexivity.
    pose proof (extract_text_from_pdf_posts_nothing w file_bytes) as Hpdf.
    destruct (endswith (lit ".pdf") (str_lower w name)).
    + destruct (extract_text_from_pdf w file_bytes) as [raw_text shown].
      cbn [snd] in Hpdf.
      destruct raw_text as [| r raw_text].
      * now rewrite http_calls_app, Hpdf.
      * unfold call_gemini.
        rewrite !http_calls_app, Hpdf, send_alert_without_recipient.
        reflexivity.
    + destruct (extract_text_from_txt w file_bytes) as [| r raw_text];
        [reflexivity |].
      unfold call_gemini.
      rewrite !http_calls_app, send_alert_without_recipient.
      reflexivity.
  - intros w hook sb recipient raw_text extraction q f H.
    destruct sb; [| now destruct H].
    destruct recipient; [now destruct H | split; [reflexivity | discriminate]].
Qed.

(** A run in which the webhook is called: the button is pressed and the
    recipient is filled in. *)
Lemma no_webhook_call_without_recipient_witness :
  true = true /\ lit "approver@example.com" <> [].
Proof.
  apply (proj2 (proj2 no_webhook_call_without_recipient)
           (with_webhook (Ok (JDict [(lit "automation_status", jstr "sent")])))
           (lit "https://n8n.example/webhook/invoice") true
           (lit "approver@example.com") (lit "Total: $1,200")
           (JDict [(lit "extracted_pairs", JList [])])
           (lit "What is the total amount?") (lit "invoice.txt")).
  vm_compute. discriminate.
Defined.

(* ================================================================== *)
(** ** The risk level (C9) *)

(** The fixed thresholds, as the specification words them. *)
Lemma spec_risk_level_boundaries :
  spec_risk_level (Some 50001%Z) = lit "High"
  /\ spec_risk_level (Some 50000%Z) = lit "Medium"
  /\ spec_risk_level (Some 5000%Z) = lit "Medium"
  /\ spec_risk_level (Some 4999%Z) = lit "Low"
  /\ spec_risk_level None = lit "Unknown".
Proof. repeat split. Qed.

(** C9, as stated, fails on the code: the script computes no risk level;
    the result carries the one in the model's reply.  For the same
    invoice, whose total of 75,000 the specification classifies as High,
    one reply yields Low and another High. *)
Lemma risk_level_is_the_models_answer :
  let invoice := lit "Total: $75,000" in
  let question := lit "What is the total amount?" in
  let low := replying (jlit "{'extracted_pairs': [], 'risk_level': 'Low'}") in
  let high := replying (jlit "{'extracted_pairs': [], 'risk_level': 'High'}") in
  get (fst (call_gemini low invoice question)) (lit "risk_level") = Ok (jstr "Low")
  /\ get (fst (call_gemini high invoice question)) (lit "risk_level") = Ok (jstr "High")
  /\ spec_risk_level (Some 75000%Z) = lit "High".
Proof. vm_compute. repeat split. Qed.

(** C9, amended: the thresholds are text of the fixed instruction that
    heads every request to the model, and the result's [risk_level] is
    the one of the decoded reply, unchanged. *)
Theorem risk_level_thresholds_are_instructions
        (w : services) (document_text user_question : str) :
  (exists rest, request_content document_text user_question = SYSTEM_PROMPT ++ rest)
  /\ contains (lit "High: total amount greater than 50,000; ") SYSTEM_PROMPT = true
  /\ contains (lit "Medium: total amount between 5,000 and 50,000; ") SYSTEM_PROMPT = true
  /\ contains (lit "Low: total amount less than 5,000; ") SYSTEM_PROMPT = true
  /\ contains (lit "Use 'Unknown' if the total amount cannot be determined. ")
       SYSTEM_PROMPT = true
  /\ (forall raw_text v,
        genai_chat_create w (request_content document_text user_question)
        = Ok raw_text ->
        loads w (cleaned raw_text) = Ok v ->
        get (fst (call_gemini w document_text user_question)) (lit "risk_level")
        = get v (lit "risk_level")).
Proof.
  split; [now eexists |].
  do 4 (split; [vm_compute; reflexivity |]).
  intros raw_text v Hreply Hv.
  unfold call_gemini; cbn [fst].
  now rewrite Hreply, Hv.
Qed.

Lemma risk_level_thresholds_are_instructions_witness :
  get (fst (call_gemini
              (replying (jlit "{'extracted_pairs': [], 'risk_level': 'Low'}"))
              (lit "Total: $1,200") (lit "What is the total amount?")))
      (lit "risk_level")
  = get (JDict [(lit "extracted_pairs", JList []); (lit "risk_level", jstr "Low")])
        (lit "risk_level").
Proof.
  apply (proj2 (proj2 (proj2 (proj2 (proj2
           (risk_level_thresholds_are_instructions
              (replying (jlit "{'extracted_pairs': [], 'risk_level': 'Low'}"))
              (lit "Total: $1,200") (lit "What is the total amount?")))))))
    with (raw_text := jlit "{'extracted_pairs': [], 'risk_level': 'Low'}").
  - reflexivity.
  - vm_compute. reflexivity.
Defined.

(* ================================================================== *)
(** ** What reaches the decoder (C10) *)

(** C10: the decoder is given the reply with every tagged fence, then
    every fence, then the surrounding whitespace removed; no fence is
    left anywhere in it, so a fence inside a JSON string value is removed
    as well and the value is decoded altered. *)
Theorem decoder_input_has_every_fence_removed :
  (forall (w : services) (document_text user_question r : str),
      genai_chat_create w (request_content document_text user_question) = Ok r ->
      fst (call_gemini w document_text user_question)
      = match loads w (spec_cleaned r) with
        | Ok v => v
        | Raise e => JDict [(lit "raw_output", JStr (spec_cleaned r));
                            (lit "parse_error", JStr e)]
        end)
  /\ (forall r : str,
        cleaned r = spec_cleaned r
        /\ contains FENCE (cleaned r) = false
        /\ contains FENCE_JSON (cleaned r) = false)
  /\ (let r := jlit "{'summary': 'see ```json block'}" in
      cleaned r = jlit "{'summary': 'see  block'}"
      /\ json_loads r = Ok (JDict [(lit "summary", jstr "see ```json block")])
      /\ json_loads (cleaned r) = Ok (JDict [(lit "summary", jstr "see  block")])).
Proof.
  split; [| split].
  - intros w d q r Hreply.
    unfold call_gemini; cbn [fst].
    now rewrite Hreply, cleaned_is_spec_cleaned.
  - intros r. split; [apply cleaned_is_spec_cleaned |].
    split; [apply cleaned_has_no_fence |].
    apply (contains_shorter FENCE (lit "json")), cleaned_has_no_fence.
  - vm_compute. repeat split.
Qed.

Lemma decoder_input_has_every_fence_removed_witness :
  fst (call_gemini (replying (jlit "{'summary': 'see ```json block'}"))
         (lit "Total: $1,200") (lit "What is the total amount?"))
  = JDict [(lit "summary", jstr "see  block")].
Proof.
  rewrite (proj1 decoder_input_has_every_fence_removed
             (replying (jlit "{'summary': 'see ```json block'}"))
             (lit "Total: $1,200") (lit "What is the total amount?")
             (jlit "{'summary': 'see ```json block'}") eq_refl).
  vm_compute. reflexivity.
Defined.

(* ================================================================== *)
(** ** More on the reply clean-up *)

Section Cleaned.

Lemma lstrip_head (s : str) (c : codepoint) (u : str) :
  lstrip s = c :: u -> is_space c = false.
Proof.
  induction s as [| b s IH]; simpl; [discriminate |].
  destruct (is_space b) eqn:Hb; [exact IH |].
  intros E; injection E as <- _. exact Hb.
Qed.

Lemma lstrip_nil_spaces (s : str) : lstrip s = [] -> spaces s.
Proof.
  intros E. destruct (lstrip_split s) as (lead & Hs & Hl).
  rewrite E, app_nil_r in Hs. now subst.
Qed.

(** [rstrip] leaves a first character that is no whitespace in place. *)
Lemma rstrip_cons (c : codepoint) (u : str) :
  is_space c = false -> rstrip (c :: u) = c :: rstrip u.
Proof.
  intros Hc. unfold rstrip. cbn [rev].
  destruct (lstrip (rev u)) as [| d v] eqn:E.
  - rewrite lstrip_spaces by now apply lstrip_nil_spaces.
    simpl. now rewrite Hc.
  - rewrite lstrip_keeps_tail by (rewrite E; discriminate).
    rewrite E, rev_app_distr. reflexivity.
Qed.

Lemma lstrip_idem (s : str) : lstrip (lstrip s) = lstrip s.
Proof.
  destruct (lstrip s) as [| c u] eqn:E; [reflexivity |].
  simpl. now rewrite (lstrip_head _ _ _ E).
Qed.

Lemma rstrip_idem (s : str) : rstrip (rstrip s) = rstrip s.
Proof.
  unfold rstrip. now rewrite rev_involutive, lstrip_idem.
Qed.

Lemma strip_idem (s : str) : strip (strip s) = strip s.
Proof.
  unfold strip at 2 3. destruct (lstrip s) as [| c u] eqn:E; [reflexivity |].
  pose proof (lstrip_head _ _ _ E) as Hc.
  rewrite (rstrip_cons c u Hc). unfold strip. simpl lstrip. rewrite Hc.
  now rewrite (rstrip_cons c _ Hc), rstrip_idem.
Qed.

Lemma lstrip_strip (s : str) : lstrip (strip s) = strip s.
Proof.
  unfold strip. destruct (lstrip s) as [| c u] eqn:E; [reflexivity |].
  pose proof (lstrip_head _ _ _ E) as Hc.
  rewrite (rstrip_cons c u Hc). simpl. now rewrite Hc.
Qed.

Lemma rstrip_strip (s : str) : rstrip (strip s) = strip s.
Proof. unfold strip. apply rstrip_idem. Qed.


Lemma strip_length (s : str) : length (strip s) <= length s.
Proof.
  destruct (strip_split s) as (lead & trail & Hs & _).
  rewrite Hs at 2. rewrite !length_app. lia.
Qed.

(** Removing occurrences never lengthens a text. *)
Lemma remove_length (a : codepoint) (p s : str) :
  length (replace (a :: p) [] s) <= length s.
Proof.
  remember (length s) as n eqn:Hn.
  revert s Hn; induction n as [n IH] using lt_wf_ind; intros s Hn.
  destruct s as [| c s]; [simpl; lia |].
  destruct (startswith (a :: p) (c :: s)) eqn:Hsw.
  - destruct (startswith_split _ _ Hsw) as [r Hr].
    rewrite Hr in Hn |- *. rewrite replace_match, app_nil_l.
    rewrite length_app in Hn.
    assert (length r < n) by (simpl in Hn; lia).
    specialize (IH (length r) H r eq_refl). lia.
  - rewrite (replace_step _ _ _ _ _ Hsw).
    assert (length s < n) by (simpl in Hn; lia).
    specialize (IH (length s) H s eq_refl). simpl in *. lia.
Qed.

Lemma cleaned_has_no_tagged_fence (r : str) :
  contains FENCE_JSON (cleaned r) = false.
Proof. apply (contains_shorter FENCE (lit "json")), cleaned_has_no_fence. Qed.

Lemma cleaned_stripped (r : str) : strip (cleaned r) = cleaned r.
Proof. unfold cleaned. apply strip_idem. Qed.

Lemma cleaned_fence_free (s : str) :
  contains FENCE s = false -> cleaned s = strip s.
Proof.
  intros H. unfold cleaned.
  pose proof (contains_strip _ _ H) as Hs.
  assert (H1 : replace FENCE_JSON [] (strip s) = strip s)
    by exact (replace_absent BQ (lit "``json") [] (strip s)
                (contains_shorter FENCE (lit "json") _ Hs)).
  assert (H2 : replace FENCE [] (strip s) = strip s)
    by exact (replace_absent BQ (lit "``") [] (strip s) Hs).
  rewrite H1, H2. apply strip_idem.
Qed.

End Cleaned.

(** Cleaning a cleaned reply changes nothing: the text kept under
    [raw_output] can be cleaned again without loss. *)
Theorem cleaned_idempotent (r : str) : cleaned (cleaned r) = cleaned r.
Proof.
  rewrite (cleaned_fence_free _ (cleaned_has_no_fence r)).
  apply cleaned_stripped.
Qed.

(** A reply without any fence is only stripped of its surrounding
    whitespace: its content reaches the decoder unchanged. *)
Theorem cleaned_only_strips_unfenced_reply (r : str) :
  contains FENCE r = false -> cleaned r = strip r.
Proof. apply cleaned_fence_free. Qed.

Lemma cleaned_only_strips_unfenced_reply_witness :
  cleaned (jlit "  {'extracted_pairs': []}  ") = strip (jlit "  {'extracted_pairs': []}  ").
Proof.
  apply cleaned_only_strips_unfenced_reply. vm_compute. reflexivity.
Defined.

(** The cleaned reply is never longer than the reply, and neither
    begins nor ends with whitespace. *)
Theorem cleaned_is_trimmed_and_no_longer (r : str) :
  (len (cleaned r) <= len r)%Z
  /\ lstrip (cleaned r) = cleaned r
  /\ rstrip (cleaned r) = cleaned r.
Proof.
  split; [| split].
  - unfold len, cleaned.
    pose proof (strip_length r).
    pose proof (remove_length BQ (lit "``json") (strip r)) as H1.
    pose proof (remove_length BQ (lit "``") (replace FENCE_JSON [] (strip r))) as H2.
    pose proof (strip_length (replace FENCE [] (replace FENCE_JSON [] (strip r)))) as H3.
    change (BQ :: lit "``json") with FENCE_JSON in H1.
    change (BQ :: lit "``") with FENCE in H2.
    lia.
  - apply lstrip_strip.
  - apply rstrip_strip.
Qed.



(* ================================================================== *)
(** ** More on the request *)

Lemma user_prompt_parts (document_text user_question : str) :
  user_prompt document_text user_question
  = prompt_before ++ slice_to 30000 document_text ++ prompt_after user_question.
Proof. unfold user_prompt, prompt_before, prompt_after. apply app_assoc. Qed.

Lemma prompt_after_length (user_question : str) :
  len (prompt_after user_question) = (581 + len user_question)%Z.
Proof.
  unfold len, prompt_after. rewrite !length_app.
  generalize (length user_question); intros n.
  replace (length (json_dumps INVOICE_SCHEMA)) with 395%nat
    by (vm_compute; reflexivity).
  simpl length. lia.
Qed.

(** What lies beyond the first 30,000 characters of the document never
    reaches the model: two documents that agree up to there give the
    same request and the same result. *)
Theorem call_gemini_ignores_text_beyond_cap (w : services)
        (document_text document_text' user_question : str) :
  slice_to 30000 document_text = slice_to 30000 document_text' ->
  call_gemini w document_text user_question
  = call_gemini w document_text' user_question.
Proof.
  intros H. unfold call_gemini, request_content.
  now rewrite !user_prompt_parts, H.
Qed.

Lemma call_gemini_ignores_text_beyond_cap_witness :
  call_gemini offline (repeat 48%N (Z.to_nat 30000) ++ lit "Total: $75,000")
              (lit "What is the total amount?")
  = call_gemini offline (repeat 48%N (Z.to_nat 30000) ++ lit "Total: $1,200")
                (lit "What is the total amount?").
Proof.
  apply call_gemini_ignores_text_beyond_cap.
  unfold slice_to. rewrite !firstn_app, !repeat_length, Nat.sub_diag.
  reflexivity.
Defined.

(** The size of a request: 1,183 fixed characters, the document up to
    30,000, and the whole question, which is not cut. *)
Theorem request_content_length (document_text user_question : str) :
  len (request_content document_text user_question)
  = (1183 + Z.min 30000 (len document_text) + len user_question)%Z.
Proof.
  unfold request_content. rewrite user_prompt_parts.
  pose proof (prompt_after_length user_question) as Ha.
  pose proof (len_slice_to 30000 document_text ltac:(lia)) as Hs.
  unfold len in *. rewrite !length_app.
  replace (length SYSTEM_PROMPT) with 587%nat by (vm_compute; reflexivity).
  replace (length prompt_before) with 13%nat by (vm_compute; reflexivity).
  change (length [NL; NL]) with 2%nat. lia.
Qed.

(** The webhook is sent the first 50,000 characters of the document
    text, which begin with the part the model was shown. *)
Theorem payload_document_text (raw_text : str) (extraction : json)
        (user_question recipient file_name : str) :
  get (payload raw_text extraction user_question recipient file_name)
      (lit "document_text") = Ok (JStr (slice_to 50000 raw_text))
  /\ len (slice_to 50000 raw_text) = Z.min 50000 (len raw_text)
  /\ exists more, slice_to 50000 raw_text = slice_to 30000 raw_text ++ more.
Proof.
  split; [reflexivity |]. split; [apply len_slice_to; lia |].
  exists (skipn (Z.to_nat 30000) (slice_to 50000 raw_text)).
  rewrite <- (firstn_skipn (Z.to_nat 30000) (slice_to 50000 raw_text)) at 1.
  f_equal. unfold slice_to. rewrite firstn_firstn, Nat.min_l by lia.
  reflexivity.
Qed.

(* ================================================================== *)
(** ** More on PDF text *)

Lemma extract_text_from_pdf_primary_witness :
  extract_text_from_pdf
    (with_pdf (Ok (map Ok [Some (lit "Invoice 17"); None; Some [];
                           Some (lit "Total: $1,200")]))
              (Raise (lit "unused")))
    PDF_HEADER
  = (lit "Invoice 17" ++ [NL; NL] ++ lit "Total: $1,200", []).
Proof.
  apply (extract_text_from_pdf_primary
           (with_pdf (Ok (map Ok [Some (lit "Invoice 17"); None; Some [];
                                  Some (lit "Total: $1,200")]))
                     (Raise (lit "unused")))
           PDF_HEADER
           [Some (lit "Invoice 17"); None; Some []; Some (lit "Total: $1,200")]).
  reflexivity.
Defined.

Lemma pdfplumber_pages_until (read : list (option str)) (e : str)
      (rest : list (outcome (option str))) (chunks : list str) :
  pdfplumber_pages (map Ok read ++ Raise e :: rest) chunks
  = (chunks ++ filter has_text (map page_text read), Some e).
Proof.
  revert chunks; induction read as [| t read IH]; intros chunks; simpl.
  - now rewrite app_nil_r.
  - destruct t as [[| c s] |]; simpl; rewrite IH; [reflexivity | | reflexivity].
    rewrite <- app_assoc. reflexivity.
Qed.

Lemma fitz_pages_all (texts : list str) (chunks : list str) :
  fitz_pages (map Ok texts) chunks = (chunks ++ texts, None).
Proof.
  revert chunks; induction texts as [| t texts IH]; intros chunks; simpl.
  - now rewrite app_nil_r.
  - rewrite IH, <- app_assoc. reflexivity.
Qed.

Lemma fitz_pages_until (texts : list str) (e : str) (rest : list (outcome str))
      (chunks : list str) :
  snd (fitz_pages (map Ok texts ++ Raise e :: rest) chunks) = Some e.
Proof.
  revert chunks; induction texts as [| t texts IH]; intros chunks; simpl;
    [reflexivity | apply IH].
Qed.

(** What [pdfplumber] leaves behind when it fails. *)
Lemma pdfplumber_failure (w : services) (file_bytes : bytes)
      (read : list (option str)) (e : str) :
  pdfplumber_fails_after w file_bytes read e ->
  match pdfplumber_open w file_bytes with
  | Ok pages => pdfplumber_pages pages []
  | Raise e' => ([], Some e')
  end = (filter has_text (map page_text read), Some e).
Proof.
  intros [[-> ->] | [rest ->]]; [reflexivity |].
  now rewrite pdfplumber_pages_until.
Qed.

(** The fallback path as it is: when [pdfplumber] fails after some
    pages and PyMuPDF reads every page, the text is the chunks already
    gathered followed by every PyMuPDF page text, empty ones included,
    joined by blank lines, with one warning. *)
Theorem extract_text_from_pdf_fallback (w : services) (file_bytes : bytes)
        (read : list (option str)) (e : str) (texts : list str) :
  pdfplumber_fails_after w file_bytes read e ->
  fitz_open w file_bytes = Ok (map Ok texts) ->
  extract_text_from_pdf w file_bytes
  = (join [NL; NL] (filter has_text (map page_text read) ++ texts),
     [st_warning (lit "pdfplumber failed: " ++ e)]).
Proof.
  intros Hp Hf. unfold extract_text_from_pdf.
  rewrite (pdfplumber_failure _ _ _ _ Hp), Hf, fitz_pages_all.
  reflexivity.
Qed.

Lemma extract_text_from_pdf_fallback_witness :
  extract_text_from_pdf
    (with_pdf (Ok [Ok (Some (lit "A")); Raise (lit "bad page")])
              (Ok [Ok (lit "A"); Ok (lit "B")]))
    PDF_HEADER
  = (lit "A" ++ [NL; NL] ++ lit "A" ++ [NL; NL] ++ lit "B",
     [st_warning (lit "pdfplumber failed: bad page")]).
Proof.
  apply (extract_text_from_pdf_fallback
           (with_pdf (Ok [Ok (Some (lit "A")); Raise (lit "bad page")])
                     (Ok [Ok (lit "A"); Ok (lit "B")]))
           PDF_HEADER [Some (lit "A")] (lit "bad page") [lit "A"; lit "B"]).
  - right. exists []. reflexivity.
  - reflexivity.
Defined.

(** When both extractors fail, wherever they fail, the text is empty,
    whatever was read before, and the warning and the error are shown. *)
Theorem extract_text_from_pdf_both_fail (w : services) (file_bytes : bytes)
        (read : list (option str)) (e e2 : str) :
  pdfplumber_fails_after w file_bytes read e ->
  fitz_fails w file_bytes e2 ->
  extract_text_from_pdf w file_bytes
  = ([], [st_warning (lit "pdfplumber failed: " ++ e);
          st_error (lit "PDF extraction fallback failed: " ++ e2)]).
Proof.
  intros Hp Hf. unfold extract_text_from_pdf.
  rewrite (pdfplumber_failure _ _ _ _ Hp).
  destruct Hf as [-> | (texts & rest & ->)]; [reflexivity |].
  pose proof (fitz_pages_until texts e2 rest
                (filter has_text (map page_text read))) as H.
  destruct (fitz_pages _ _) as [chunks failure]. cbn [snd] in H. now subst.
Qed.

Lemma extract_text_from_pdf_both_fail_witness :
  extract_text_from_pdf
    (with_pdf (Ok [Ok (Some (lit "A")); Raise (lit "bad page")])
              (Ok [Ok (lit "A"); Raise (lit "bad xref")]))
    PDF_HEADER
  = ([], [st_warning (lit "pdfplumber failed: bad page");
          st_error (lit "PDF extraction fallback failed: bad xref")]).
Proof.
  apply (extract_text_from_pdf_both_fail
           (with_pdf (Ok [Ok (Some (lit "A")); Raise (lit "bad page")])
                     (Ok [Ok (lit "A"); Raise (lit "bad xref")]))
           PDF_HEADER [Some (lit "A")] (lit "bad page") (lit "bad xref")).
  - right. exists []. reflexivity.
  - right. exists [lit "A"], []. reflexivity.
Defined.

(** What the function reports, in every case: nothing; or the warning
    alone; or the warning and the error, and then the text is empty.
    An error is never shown beside a text. *)
Theorem extract_text_from_pdf_reports (w : services) (file_bytes : bytes) :
  let text := fst (extract_text_from_pdf w file_bytes) in
  let shown := snd (extract_text_from_pdf w file_bytes) in
  shown = []
  \/ (exists e, shown = [st_warning (lit "pdfplumber failed: " ++ e)])
  \/ (exists e e2,
        shown = [st_warning (lit "pdfplumber failed: " ++ e);
                 st_error (lit "PDF extraction fallback failed: " ++ e2)]
        /\ text = []).
Proof.
  unfold extract_text_from_pdf.
  destruct (match pdfplumber_open w file_bytes with
            | Ok pages => pdfplumber_pages pages []
            | Raise e => ([], Some e)
            end) as [chunks [e |]]; [| now left].
  right.
  destruct (match fitz_open w file_bytes with
            | Ok pages => fitz_pages pages chunks
            | Raise e2 => (chunks, Some e2)
            end) as [chunks' [e2 |]]; cbn [fst snd].
  - right. now exists e, e2.
  - left. now exists e.
Qed.

(* ================================================================== *)
(** ** More on the webhook's answer *)

(** The normalisation raises exactly on a list that is not empty and
    whose first item is no dict, with the message of the failed
    [.get] on that item. *)
Theorem n8n_data_raises_iff (n8n_resp : json) (m : str) :
  n8n_data n8n_resp = Raise m
  <-> exists first rest,
        n8n_resp = JList (first :: rest)
        /\ is_dict first = false /\ m = no_get first.
Proof.
  split.
  - destruct n8n_resp as [| b | z | fm fe | | ng | s | [| first rest] | d];
      try discriminate.
    intros H. exists first, rest.
    destruct first; try discriminate;
      (split; [reflexivity |]; split; [reflexivity |]);
      simpl in H; now injection H as <-.
  - intros (first & rest & -> & Hd & ->).
    destruct first; try discriminate; reflexivity.
Qed.

(** On a dict, a field is read without raising, and what is read is
    truthy exactly when one of the two keys holds a truthy value. *)
Lemma get_or_dict (d : dict) (a b : str) :
  exists v, get_or (JDict d) a b = Ok v
            /\ truthy v = holds_truthy a d || holds_truthy b d.
Proof.
  unfold get_or, get, get_default, bind, holds_truthy.
  destruct (dict_get a d) as [x |]; [destruct (truthy x) eqn:Hx |].
  - exists x. now rewrite Hx.
  - destruct (dict_get b d) as [y |]; [now exists y | now exists JNull].
  - cbn [truthy]. destruct (dict_get b d) as [y |]; [now exists y | now exists JNull].
Qed.

(** The three fields of an answer object never raise, and each is
    truthy, so that it is shown instead of its placeholder, exactly when
    one of its two keys holds a truthy value. *)
Theorem fields_truthy_iff_a_key_is (d : dict) :
  (exists v, final_answer (JDict d) = Ok v
             /\ truthy v = holds_truthy (lit "final_answer") d
                           || holds_truthy (lit "finalAnswer") d)
  /\ (exists v, email_body (JDict d) = Ok v
                /\ truthy v = holds_truthy (lit "email_body") d
                              || holds_truthy (lit "emailBody") d)
  /\ (exists v, status (JDict d) = Ok v
                /\ truthy v = holds_truthy (lit "automation_status") d
                              || holds_truthy (lit "status") d).
Proof. repeat split; apply get_or_dict. Qed.

(** The two ways through the block.  When the normalisation raises, or
    gives something that is no dict, the error with the message of the
    failed [.get], the subheader and the raw answer are shown and
    nothing else.  When it gives a dict, exactly the three expanders are
    shown, each with its content: the final answer or its placeholder
    as info, the email body or its placeholder as code, and the status
    as success or warning, or its placeholder as info; no error and no
    raw answer is among them. *)
Theorem process_n8n_response_paths (w : services) (n8n_resp : json) :
  (forall m, n8n_data n8n_resp = Raise m ->
     process_n8n_response w n8n_resp = error_shown m n8n_resp)
  /\ (forall v, n8n_data n8n_resp = Ok v -> is_dict v = false ->
        process_n8n_response w n8n_resp = error_shown (no_get v) n8n_resp)
  /\ (forall d, n8n_data n8n_resp = Ok (JDict d) ->
        let fa := first_truthy (lit "final_answer") (lit "finalAnswer") d in
        let eb := first_truthy (lit "email_body") (lit "emailBody") d in
        let st := first_truthy (lit "automation_status") (lit "status") d in
        process_n8n_response w n8n_resp
        = [st_expander (lit "Final Analytical Answer");
           st_info (if truthy fa then fa
                    else jstr "No analytical answer returned by n8n");
           st_expander (lit "Generated Email Body");
           st_code (if truthy eb then eb else jstr "No email body returned");
           st_expander (lit "Email Automation Status");
           if truthy st then
             if existsb (str_eqb (str_lower w (py_str w st))) SENT_WORDS
             then st_success (lit "Email Status: " ++ py_str w st)
             else st_warning (lit "Email Status: " ++ py_str w st)
           else st_info (jstr "No automation status returned by n8n")]
        /\ (forall x, ~ In (st_error x) (process_n8n_response w n8n_resp))
        /\ (forall x, ~ In (st_json x) (process_n8n_response w n8n_resp))).
Proof.
  split; [| split].
  - intros m H. unfold process_n8n_response. now rewrite H.
  - intros v H Hv. unfold process_n8n_response. rewrite H.
    destruct v; try discriminate; reflexivity.
  - intros d H. cbv zeta.
    assert (Hshown :
      process_n8n_response w n8n_resp
      = [st_expander (lit "Final Analytical Answer");
         st_info (if truthy (first_truthy (lit "final_answer") (lit "finalAnswer") d)
                  then first_truthy (lit "final_answer") (lit "finalAnswer") d
                  else jstr "No analytical answer returned by n8n");
         st_expander (lit "Generated Email Body");
         st_code (if truthy (first_truthy (lit "email_body") (lit "emailBody") d)
                  then first_truthy (lit "email_body") (lit "emailBody") d
                  else jstr "No email body returned");
         st_expander (lit "Email Automation Status");
         if truthy (first_truthy (lit "automation_status") (lit "status") d) then
           if existsb
                (str_eqb (str_lower w
                   (py_str w (first_truthy (lit "automation_status") (lit "status") d))))
                SENT_WORDS
           then st_success
                  (lit "Email Status: "
                   ++ py_str w (first_truthy (lit "automation_status") (lit "status") d))
           else st_warning
                  (lit "Email Status: "
                   ++ py_str w (first_truthy (lit "automation_status") (lit "status") d))
         else st_info (jstr "No automation status returned by n8n")]).
    { unfold process_n8n_response. rewrite H. cbn [bind].
      unfold final_answer, email_body, status.
      rewrite !get_or_first_truthy. cbn [bind]. reflexivity. }
    split; [exact Hshown |].
    rewrite Hshown.
    split; intros x Hin; cbn [In] in Hin;
      repeat match type of Hin with
             | _ \/ _ => destruct Hin as [Hin | Hin]
             end;
      try discriminate; try contradiction;
      repeat match type of Hin with
             | context [if ?b then _ else _] => destruct b
             end;
      discriminate.
Qed.

Lemma process_n8n_response_paths_witness :
  process_n8n_response offline (JDict [(lit "json", jstr "done")])
  = error_shown (lit "'str' object has no attribute 'get'")
                (JDict [(lit "json", jstr "done")]).
Proof.
  apply (proj1 (proj2 (process_n8n_response_paths offline
                         (JDict [(lit "json", jstr "done")])))
           (jstr "done")); reflexivity.
Defined.

(** An answer with a final answer and a status: each is shown in its
    expander, the email body as its placeholder. *)
Lemma process_n8n_response_shows_fields :
  process_n8n_response offline
    (JDict [(lit "finalAnswer", jstr "Total is 1,200");
            (lit "automation_status", jstr "Sent")])
  = [st_expander (lit "Final Analytical Answer");
     st_info (jstr "Total is 1,200");
     st_expander (lit "Generated Email Body");
     st_code (jstr "No email body returned");
     st_expander (lit "Email Automation Status");
     st_success (lit "Email Status: Sent")].
Proof. reflexivity. Qed.

(** What is shown for an answer depends on the answer only through
    the object it normalises to: an answer wrapped in a list or under
    [json] is shown like the bare object. *)
Theorem process_n8n_response_by_normal_form (w : services)
        (n8n_resp n8n_resp' : json) (d : dict) :
  n8n_data n8n_resp = Ok (JDict d) ->
  n8n_data n8n_resp' = Ok (JDict d) ->
  process_n8n_response w n8n_resp = process_n8n_response w n8n_resp'.
Proof.
  intros H H'. unfold process_n8n_response. rewrite H, H'. cbn [bind].
  destruct (get_or_dict d (lit "final_answer") (lit "finalAnswer"))
    as (fa & Hfa & _).
  destruct (get_or_dict d (lit "email_body") (lit "emailBody"))
    as (eb & Heb & _).
  destruct (get_or_dict d (lit "automation_status") (lit "status"))
    as (st & Hst & _).
  unfold final_answer, email_body, status.
  rewrite Hfa; cbn [bind]. rewrite Heb; cbn [bind]. rewrite Hst; cbn [bind].
  reflexivity.
Qed.

Lemma process_n8n_response_by_normal_form_witness :
  process_n8n_response offline
    (JList [JDict [(lit "json", JDict [(lit "status", jstr "sent")])]; JNull])
  = process_n8n_response offline (JDict [(lit "status", jstr "sent")]).
Proof.
  apply (process_n8n_response_by_normal_form offline _ _
           [(lit "status", jstr "sent")]); reflexivity.
Defined.

Lemma n8n_data_raises_iff_witness :
  n8n_data (JList [JInt 5; JDict []])
  = Raise (lit "'int' object has no attribute 'get'").
Proof.
  apply (proj2 (n8n_data_raises_iff (JList [JInt 5; JDict []])
                  (lit "'int' object has no attribute 'get'"))).
  exists (JInt 5), [JDict []]. repeat split.
Defined.

(** An answer object without a [json] key in which none of the six keys
    holds a truthy value shows the three placeholders. *)
Theorem process_n8n_response_placeholders (w : services) (d : dict) :
  dict_get (lit "json") d = None ->
  holds_truthy (lit "final_answer") d || holds_truthy (lit "finalAnswer") d = false ->
  holds_truthy (lit "email_body") d || holds_truthy (lit "emailBody") d = false ->
  holds_truthy (lit "automation_status") d || holds_truthy (lit "status") d = false ->
  process_n8n_response w (JDict d) = PLACEHOLDERS.
Proof.
  intros Hj Hfa Heb Hst. unfold process_n8n_response, n8n_data, get_default.
  rewrite Hj. cbn [bind].
  destruct (get_or_dict d (lit "final_answer") (lit "finalAnswer"))
    as (fa & Efa & Tfa).
  destruct (get_or_dict d (lit "email_body") (lit "emailBody"))
    as (eb & Eeb & Teb).
  destruct (get_or_dict d (lit "automation_status") (lit "status"))
    as (st & Est & Tst).
  unfold final_answer, email_body, status.
  rewrite Efa; cbn [bind]. rewrite Eeb; cbn [bind]. rewrite Est; cbn [bind].
  rewrite Hfa in Tfa. rewrite Heb in Teb. rewrite Hst in Tst.
  now rewrite Tfa, Teb, Tst.
Qed.

Lemma process_n8n_response_placeholders_witness :
  process_n8n_response offline
    (JDict [(lit "final_answer", JNull); (lit "status", jstr "")])
  = PLACEHOLDERS.
Proof.
  apply process_n8n_response_placeholders; reflexivity.
Defined.

(** A failed webhook call does not end the branch: the call is issued
    once, its failure is shown, and the dict made of the failure is then
    processed like an answer, which shows the three placeholders. *)
Theorem send_alert_on_failed_post (w : services) (N8N_WEBHOOK : str)
        (c : codepoint) (address raw_text : str) (extraction : json)
        (user_question file_name e : str) :
  requests_post_json w N8N_WEBHOOK
    (payload raw_text extraction user_question (c :: address) file_name)
  = Raise e ->
  send_alert w N8N_WEBHOOK true (c :: address) raw_text extraction
    user_question file_name
  = [st_spinner (lit "Calling n8n webhook...");
     http_post N8N_WEBHOOK
       (payload raw_text extraction user_question (c :: address) file_name) 60;
     st_error (lit "Failed to call n8n webhook: " ++ e)]
    ++ PLACEHOLDERS.
Proof.
  intros H. unfold send_alert. rewrite H. reflexivity.
Qed.

Lemma send_alert_on_failed_post_witness :
  send_alert offline (lit "https://n8n.example/webhook/invoice") true
    (lit "approver@example.com") (lit "Total: $1,200")
    (JDict [(lit "extracted_pairs", JList [])])
    (lit "What is the total amount?") (lit "invoice.txt")
  = [st_spinner (lit "Calling n8n webhook...");
     http_post (lit "https://n8n.example/webhook/invoice")
       (payload (lit "Total: $1,200") (JDict [(lit "extracted_pairs", JList [])])
                (lit "What is the total amount?") (lit "approver@example.com")
                (lit "invoice.txt")) 60;
     st_error (lit "Failed to call n8n webhook: Connection refused")]
    ++ PLACEHOLDERS.
Proof.
  apply (send_alert_on_failed_post offline
           (lit "https://n8n.example/webhook/invoice") 97%N
           (lit "pprover@example.com")).
  reflexivity.
Defined.

(* ================================================================== *)
(** ** A whole run *)

Section Run.

Lemma genai_calls_app (a b : list event) :
  genai_calls (a ++ b) = genai_calls a ++ genai_calls b.
Proof. apply filter_app. Qed.

Lemma extract_text_from_pdf_calls_no_model (w : services) (file_bytes : bytes) :
  genai_calls (snd (extract_text_from_pdf w file_bytes)) = [].
Proof.
  unfold extract_text_from_pdf.
  destruct (match pdfplumber_open w file_bytes with
            | Ok pages => pdfplumber_pages pages []
            | Raise e => ([], Some e)
            end) as [chunks [e |]]; [| reflexivity].
  destruct (match fitz_open w file_bytes with
            | Ok pages => fitz_pages pages chunks
            | Raise e2 => (chunks, Some e2)
            end) as [chunks' [e2 |]]; reflexivity.
Qed.

Lemma process_n8n_response_calls_no_model (w : services) (n8n_resp : json) :
  genai_calls (process_n8n_response w n8n_resp) = [].
Proof.
  unfold process_n8n_response.
  match goal with
  | |- context [match ?r with Ok _ => _ | Raise _ => _ end] =>
      destruct r as [[[fa eb] st] | m]
  end; [| reflexivity].
  repeat match goal with
         | |- context [if truthy ?v then _ else _] => destruct (truthy v)
         | |- context [if existsb ?f ?l then _ else _] => destruct (existsb f l)
         end; reflexivity.
Qed.

Lemma send_alert_calls_no_model (w : services) (N8N_WEBHOOK : str)
      (send_button : bool) (recipient raw_text : str) (extraction : json)
      (user_question file_name : str) :
  genai_calls (send_alert w N8N_WEBHOOK send_button recipient raw_text
                 extraction user_question file_name) = [].
Proof.
  unfold send_alert. destruct send_button; [| reflexivity].
  destruct recipient as [| c recipient]; [reflexivity |].
  destruct (requests_post_json w N8N_WEBHOOK _) as [v | e];
    rewrite genai_calls_app, process_n8n_response_calls_no_model; reflexivity.
Qed.

Lemma send_alert_posts_at_most_once (w : services) (N8N_WEBHOOK : str)
      (send_button : bool) (recipient raw_text : str) (extraction : json)
      (user_question file_name : str) :
  length (http_calls (send_alert w N8N_WEBHOOK send_button recipient raw_text
                        extraction user_question file_name)) <= 1.
Proof.
  unfold send_alert. destruct send_button; [| simpl; lia].
  destruct recipient as [| c recipient]; [simpl; lia |].
  destruct (requests_post_json w N8N_WEBHOOK _) as [v | e];
    rewrite http_calls_app, process_n8n_response_posts_nothing; simpl; lia.
Qed.

(** The run, once the secrets, the file and the question are there, in
    terms of the extracted text. *)
Lemma script_unfolded (w : services) (k N8N_WEBHOOK name : str)
      (file_bytes : bytes) (c : codepoint) (question recipient : str)
      (send_button : bool) :
  let user_question := c :: question in
  let raw_text := extracted_text w name file_bytes in
  let extraction := fst (call_gemini w raw_text user_question) in
  script w (Some k) (Some N8N_WEBHOOK) (Some (name, file_bytes)) user_question
    recipient send_button
  = extraction_reports w name file_bytes
    ++ match raw_text with
       | [] => [st_error (lit "No text extracted from the document."); st_stop]
       | _ :: _ =>
           [st_expander (lit "Document Preview (first 2000 chars)");
            st_code (JStr (slice_to 2000 raw_text
                           ++ if (len raw_text >? 2000)%Z
                              then lit "..." ++ [NL; NL] ++ lit "[truncated]"
                              else []));
            st_info (jstr "Running Gemini dynamic extraction...")]
           ++ [genai_call (request_content raw_text user_question)]
           ++ [st_success (lit "Extraction complete.");
               st_subheader (lit "Structured Data Extracted (JSON)");
               st_json extraction;
               st_subheader (lit "Email Automation (n8n)")]
           ++ send_alert w N8N_WEBHOOK send_button recipient raw_text
                extraction user_question name
       end.
Proof.
  cbv zeta. unfold script, extracted_text, extraction_reports.
  destruct (endswith (lit ".pdf") (str_lower w name)).
  - destruct (extract_text_from_pdf w file_bytes) as [raw_text shown].
    cbn [fst snd]. destruct raw_text; reflexivity.
  - destruct (extract_text_from_txt w file_bytes); reflexivity.
Qed.

Lemma extraction_reports_calls_nothing (w : services) (name : str)
      (file_bytes : bytes) :
  genai_calls (extraction_reports w name file_bytes) = []
  /\ http_calls (extraction_reports w name file_bytes) = [].
Proof.
  unfold extraction_reports.
  destruct (endswith _ _); [| now split].
  split; [apply extract_text_from_pdf_calls_no_model
         | apply extract_text_from_pdf_posts_nothing].
Qed.

End Run.

(** A run requests the model at most once and calls the webhook at most
    once, and it calls the webhook only if it has requested the model. *)
Theorem script_calls_at_most_once (w : services)
        (GEMINI_API_KEY N8N_WEBHOOK_URL : option str)
        (uploaded_file : option (str * bytes))
        (user_question recipient : str) (send_button : bool) :
  let run := script w GEMINI_API_KEY N8N_WEBHOOK_URL uploaded_file
               user_question recipient send_button in
  length (http_calls run) <= length (genai_calls run)
  /\ length (genai_calls run) <= 1.
Proof.
  cbv zeta.
  destruct GEMINI_API_KEY as [k |], N8N_WEBHOOK_URL as [hook |];
    try (simpl; lia).
  destruct uploaded_file as [[name file_bytes] |], user_question as [| c q];
    try (simpl; lia).
  pose proof (script_unfolded w k hook name file_bytes c q recipient send_button)
    as H. cbv zeta in H. rewrite H.
  destruct (extraction_reports_calls_nothing w name file_bytes) as [Hg Hp].
  rewrite genai_calls_app, http_calls_app, Hg, Hp.
  destruct (extracted_text w name file_bytes) as [| t text]; [simpl; lia |].
  rewrite !genai_calls_app, !http_calls_app, send_alert_calls_no_model.
  pose proof (send_alert_posts_at_most_once w hook send_button recipient
                (t :: text) (fst (call_gemini w (t :: text) (c :: q)))
                (c :: q) name).
  simpl in *. lia.
Qed.

(** Without both secrets the run shows the error and stops, whatever was
    uploaded or asked; with them but without a file or a question it
    only asks for them.  In neither case is anything extracted or any
    remote call made. *)
Theorem script_without_inputs (w : services)
        (GEMINI_API_KEY N8N_WEBHOOK_URL : option str)
        (uploaded_file : option (str * bytes))
        (user_question recipient : str) (send_button : bool) :
  (GEMINI_API_KEY = None \/ N8N_WEBHOOK_URL = None ->
   script w GEMINI_API_KEY N8N_WEBHOOK_URL uploaded_file user_question
     recipient send_button = MISSING_SECRETS)
  /\ (GEMINI_API_KEY <> None -> N8N_WEBHOOK_URL <> None ->
      uploaded_file = None \/ user_question = [] ->
      script w GEMINI_API_KEY N8N_WEBHOOK_URL uploaded_file user_question
        recipient send_button = AWAITING_INPUT).
Proof.
  split.
  - intros [-> | ->]; [reflexivity | now destruct GEMINI_API_KEY].
  - intros Hk Hh H.
    destruct GEMINI_API_KEY as [k |]; [| now destruct Hk].
    destruct N8N_WEBHOOK_URL as [hook |]; [| now destruct Hh].
    destruct H as [-> | ->]; [reflexivity |].
    now destruct uploaded_file as [[name file_bytes] |].
Qed.

Lemma script_without_inputs_witness :
  script (replying (jlit "{'extracted_pairs': []}")) None
    (Some (lit "https://n8n.example/webhook/invoice"))
    (Some (lit "invoice.txt", [])) (lit "What is the total amount?")
    (lit "approver@example.com") true
  = MISSING_SECRETS.
Proof.
  apply (proj1 (script_without_inputs _ None _ _ _ _ _)). now left.
Defined.

(** When no text comes out of the upload, the run shows what the
    extraction reported, then the error, and stops: the model is not
    requested and the webhook not called, even with the button pressed. *)
Theorem script_stops_without_text (w : services) (k N8N_WEBHOOK name : str)
        (file_bytes : bytes) (c : codepoint) (question recipient : str)
        (send_button : bool) :
  extracted_text w name file_bytes = [] ->
  let run := script w (Some k) (Some N8N_WEBHOOK) (Some (name, file_bytes))
               (c :: question) recipient send_button in
  run = extraction_reports w name file_bytes
        ++ [st_error (lit "No text extracted from the document."); st_stop]
  /\ genai_calls run = [] /\ http_calls run = [].
Proof.
  intros Hempty. cbv zeta.
  pose proof (script_unfolded w k N8N_WEBHOOK name file_bytes c question
                recipient send_button) as H.
  cbv zeta in H. rewrite Hempty in H. rewrite H.
  destruct (extraction_reports_calls_nothing w name file_bytes) as [Hg Hp].
  rewrite genai_calls_app, http_calls_app, Hg, Hp. now repeat split.
Qed.

Lemma script_stops_without_text_witness :
  script offline (Some (lit "key")) (Some (lit "https://n8n.example/webhook/invoice"))
    (Some (lit "Scan.PDF", PDF_HEADER)) (lit "What is the total amount?")
    (lit "approver@example.com") true
  = [st_warning (lit "pdfplumber failed: No /Root object! - Is this really a PDF?");
     st_error (lit "PDF extraction fallback failed: Failed to open stream");
     st_error (lit "No text extracted from the document.");
     st_stop].
Proof.
  apply (proj1 (script_stops_without_text offline (lit "key")
                  (lit "https://n8n.example/webhook/invoice") (lit "Scan.PDF")
                  PDF_HEADER 87%N (lit "hat is the total amount?")
                  (lit "approver@example.com") true eq_refl)).
Defined.

(** What is shown is what is sent: in a run with a text, a pressed
    button and a recipient, the value displayed as the extraction and
    the value posted under [extracted_json] are the one result of the
    one model request, made on the extracted text, before the post. *)
Theorem script_sends_what_it_shows (w : services) (k N8N_WEBHOOK name : str)
        (file_bytes : bytes) (c a : codepoint) (question address : str) :
  extracted_text w name file_bytes <> [] ->
  let raw_text := extracted_text w name file_bytes in
  let user_question := c :: question in
  let extraction := fst (call_gemini w raw_text user_question) in
  exists before between after,
    script w (Some k) (Some N8N_WEBHOOK) (Some (name, file_bytes))
      user_question (a :: address) true
    = before
      ++ genai_call (request_content raw_text user_question)
      :: between
      ++ http_post N8N_WEBHOOK
           (payload raw_text extraction user_question (a :: address) name) 60
      :: after
    /\ In (st_json extraction) between
    /\ genai_calls before = [] /\ http_calls before = []
    /\ genai_calls between = [] /\ http_calls between = []
    /\ genai_calls after = [] /\ http_calls after = [].
Proof.
  intros Htext. cbv zeta.
  pose proof (script_unfolded w k N8N_WEBHOOK name file_bytes c question
                (a :: address) true) as H.
  cbv zeta in H. rewrite H. clear H.
  destruct (extraction_reports_calls_nothing w name file_bytes) as [Hg Hp].
  destruct (extracted_text w name file_bytes) as [| t text] eqn:E;
    [now destruct Htext |].
  set (raw_text := t :: text) in *.
  set (extraction := fst (call_gemini w raw_text (c :: question))).
  unfold send_alert.
  set (body := payload raw_text extraction (c :: question) (a :: address) name).
  destruct (requests_post_json w N8N_WEBHOOK body) as [v | e].
  - eexists (extraction_reports w name file_bytes ++ [_; _; _]),
            [_; _; _; _; _], (_ :: process_n8n_response w v).
    split; [rewrite <- !app_assoc; reflexivity |].
    split; [simpl; tauto |].
    rewrite genai_calls_app, http_calls_app, Hg, Hp.
    repeat split; try reflexivity.
    + apply (process_n8n_response_calls_no_model w v).
    + apply (process_n8n_response_posts_nothing w v).
  - eexists (extraction_reports w name file_bytes ++ [_; _; _]),
            [_; _; _; _; _], (_ :: process_n8n_response w _).
    split; [rewrite <- !app_assoc; reflexivity |].
    split; [simpl; tauto |].
    rewrite genai_calls_app, http_calls_app, Hg, Hp.
    repeat split; reflexivity.
Qed.

Lemma script_sends_what_it_shows_witness :
  let w := complete (lit "Total: $1,200") (jlit "{'extracted_pairs': []}")
             (Ok (JDict [(lit "automation_status", jstr "sent")])) in
  exists before between after,
    script w (Some (lit "key")) (Some (lit "https://n8n.example/webhook/invoice"))
      (Some (lit "invoice.txt", [])) (lit "What?") (lit "a@b.c") true
    = before
      ++ genai_call (request_content (lit "Total: $1,200") (lit "What?"))
      :: between
      ++ http_post (lit "https://n8n.example/webhook/invoice")
           (payload (lit "Total: $1,200") (JDict [(lit "extracted_pairs", JList [])])
                    (lit "What?") (lit "a@b.c") (lit "invoice.txt")) 60
      :: after
    /\ In (st_json (JDict [(lit "extracted_pairs", JList [])])) between.
Proof.
  cbv zeta.
  destruct (script_sends_what_it_shows
              (complete (lit "Total: $1,200") (jlit "{'extracted_pairs': []}")
                 (Ok (JDict [(lit "automation_status", jstr "sent")])))
              (lit "key") (lit "https://n8n.example/webhook/invoice")
              (lit "invoice.txt") [] 87%N 97%N (lit "hat?") (lit "@b.c")
              ltac:(discriminate))
    as (before & between & after & Hrun & Hin & _).
  exists before, between, after. split; [exact Hrun | exact Hin].
Defined.

(** The preview of a run with a text: a text of at most 2,000
    characters is shown whole; a longer one is cut to its first 2,000
    characters and followed by the 16 characters of the notice. *)
Theorem script_preview (w : services) (k N8N_WEBHOOK name : str)
        (file_bytes : bytes) (c : codepoint) (question recipient : str)
        (send_button : bool) :
  let raw_text := extracted_text w name file_bytes in
  (raw_text <> [] ->
   In (st_code (JStr (preview raw_text)))
      (script w (Some k) (Some N8N_WEBHOOK) (Some (name, file_bytes))
         (c :: question) recipient send_button))
  /\ (len raw_text <= 2000 -> preview raw_text = raw_text)%Z
  /\ (2000 < len raw_text ->
      len (preview raw_text) = 2016
      /\ exists cut, raw_text = slice_to 2000 raw_text ++ cut)%Z.
Proof.
  cbv zeta. split; [| split].
  - intros Htext.
    pose proof (script_unfolded w k N8N_WEBHOOK name file_bytes c question
                  recipient send_button) as H.
    cbv zeta in H. rewrite H. clear H.
    destruct (extracted_text w name file_bytes) as [| t text];
      [now destruct Htext |].
    apply in_or_app. right. simpl. tauto.
  - intros Hshort. unfold preview.
    destruct (Z.gtb_spec (len (extracted_text w name file_bytes)) 2000); [lia |].
    rewrite app_nil_r. unfold slice_to, len in *. apply firstn_all2. lia.
  - intros Hlong. unfold preview.
    destruct (Z.gtb_spec (len (extracted_text w name file_bytes)) 2000); [| lia].
    split.
    + pose proof (len_slice_to 2000 (extracted_text w name file_bytes)
                    ltac:(lia)) as Hs.
      unfold len in *. rewrite length_app.
      change (length (lit "..." ++ [NL; NL] ++ lit "[truncated]")) with 16%nat.
      lia.
    + exists (skipn (Z.to_nat 2000) (extracted_text w name file_bytes)).
      unfold slice_to. symmetry. apply firstn_skipn.
Qed.

Lemma script_preview_witness :
  preview (lit "Total: $1,200") = lit "Total: $1,200".
Proof.
  apply (proj1 (proj2 (script_preview
                         (complete (lit "Total: $1,200")
                                   (jlit "{'extracted_pairs': []}")
                                   (Raise (lit "Connection refused")))
                         (lit "key") (lit "https://n8n.example/webhook/invoice")
                         (lit "invoice.txt") [] 87%N (lit "hat?") [] false))).
  vm_compute. discriminate.
Defined.

(* ================================================================== *)
(** ** Text uploads *)

Section Utf8Facts.

Ltac decode_cases :=
  repeat match goal with
         | |- context [if ?c then _ else _] => destruct c
         | |- context [match ?l with [] => _ | _ :: _ => _ end] =>
             is_var l; destruct l
         end.

Lemma decode_values_nonempty (b0 : N) (t0 : list N) :
  decode_values (b0 :: t0) <> [].
Proof. cbn [decode_values]. decode_cases; discriminate. Qed.

Lemma decode_values_length (bs : list N) :
  length (decode_values bs) <= length bs.
Proof.
  remember (length bs) as n eqn:Hn.
  revert bs Hn; induction n as [n IH] using lt_wf_ind; intros bs Hn.
  assert (Hrec : forall t, length t < n -> length (decode_values t) <= length t)
    by (intros t Ht; exact (IH (length t) Ht t eq_refl)).
  clear IH. subst n.
  destruct bs as [| b0 t0]; [reflexivity |].
  cbn [decode_values]. decode_cases; cbn [length] in *;
    repeat match goal with
           | |- context [length (decode_values ?t)] =>
               lazymatch goal with
               | H : length (decode_values t) <= _ |- _ => fail
               | _ => pose proof (Hrec t ltac:(cbn [length]; lia))
               end
           end;
    cbn [length] in *; lia.
Qed.

Lemma decode_values_ascii (bs : list N) :
  Forall (fun b => (b < 128)%N) bs -> decode_values bs = bs.
Proof.
  induction 1 as [| b bs Hb _ IH]; [reflexivity |].
  cbn [decode_values]. apply N.ltb_lt in Hb. now rewrite Hb, IH.
Qed.

End Utf8Facts.

(** The text of a text upload, decoded as UTF-8 with replacement: it
    is empty only for an empty file, has at most one character per byte,
    and for a file of ASCII bytes is those bytes' characters, one for
    one. *)
Theorem extract_text_from_txt_keeps_the_file (w : services) (file_bytes : bytes) :
  decode_utf8_replace w file_bytes = utf8_decode_replace file_bytes ->
  (extract_text_from_txt w file_bytes = [] <-> file_bytes = [])
  /\ length (extract_text_from_txt w file_bytes) <= length file_bytes
  /\ (Forall (fun b => (Byte.to_N b < 128)%N) file_bytes ->
      extract_text_from_txt w file_bytes = map Byte.to_N file_bytes).
Proof.
  intros Hdec. unfold extract_text_from_txt. rewrite Hdec.
  unfold utf8_decode_replace. split; [split | split].
  - destruct file_bytes as [| b t]; [reflexivity |].
    intros H. now destruct (decode_values_nonempty _ _ H).
  - now intros ->.
  - rewrite <- (length_map Byte.to_N file_bytes). apply decode_values_length.
  - intros H. apply decode_values_ascii. now apply Forall_map.
Qed.

Lemma extract_text_from_txt_keeps_the_file_witness :
  extract_text_from_txt
    (complete (utf8_decode_replace PDF_HEADER) (lit "{}")
              (Raise (lit "Connection refused")))
    PDF_HEADER
  = lit "%PDF-1.4".
Proof.
  apply (proj2 (proj2 (extract_text_from_txt_keeps_the_file
                         (complete (utf8_decode_replace PDF_HEADER) (lit "{}")
                                   (Raise (lit "Connection refused")))
                         PDF_HEADER eq_refl))).
  repeat constructor.
Defined.

(** A text upload, decoded as UTF-8 with replacement: an empty file
    stops the run with the error and no request; any other file, valid
    UTF-8 or not, leads to exactly one request to the model, on the
    decoded text. *)
Theorem script_on_text_upload (w : services) (k N8N_WEBHOOK name : str)
        (file_bytes : bytes) (c : codepoint) (question recipient : str)
        (send_button : bool) :
  endswith (lit ".pdf") (str_lower w name) = false ->
  decode_utf8_replace w file_bytes = utf8_decode_replace file_bytes ->
  let run := script w (Some k) (Some N8N_WEBHOOK) (Some (name, file_bytes))
               (c :: question) recipient send_button in
  (file_bytes = [] ->
   run = [st_error (lit "No text extracted from the document."); st_stop])
  /\ (file_bytes <> [] ->
      genai_calls run
      = [genai_call (request_content (utf8_decode_replace file_bytes)
                       (c :: question))]).
Proof.
  intros Hname Hdec. cbv zeta.
  pose proof (script_unfolded w k N8N_WEBHOOK name file_bytes c question
                recipient send_button) as H.
  cbv zeta in H. rewrite H. clear H.
  unfold extraction_reports, extracted_text, extract_text_from_txt.
  rewrite Hname, Hdec.
  split.
  - now intros ->.
  - intros Hne.
    destruct file_bytes as [| b t]; [now destruct Hne |].
    destruct (utf8_decode_replace (b :: t)) as [| ch text] eqn:E.
    + unfold utf8_decode_replace in E.
      now destruct (decode_values_nonempty _ _ E).
    + rewrite !genai_calls_app, send_alert_calls_no_model. reflexivity.
Qed.

Lemma script_on_text_upload_witness :
  genai_calls
    (script (complete (utf8_decode_replace [Byte.xff; Byte.x41]) (lit "{}")
                      (Raise (lit "Connection refused")))
       (Some (lit "key")) (Some (lit "https://n8n.example/webhook/invoice"))
       (Some (lit "notes.txt", [Byte.xff; Byte.x41])) (lit "What?") [] false)
  = [genai_call (request_content [65533; 65]%N (lit "What?"))].
Proof.
  apply (proj2 (script_on_text_upload
                  (complete (utf8_decode_replace [Byte.xff; Byte.x41]) (lit "{}")
                            (Raise (lit "Connection refused")))
                  (lit "key") (lit "https://n8n.example/webhook/invoice")
                  (lit "notes.txt") [Byte.xff; Byte.x41] 87%N (lit "hat?") []
                  false eq_refl eq_refl)).
  discriminate.
Defined.
